(** * seller-apis: reconciliation of marketplace catalogs against a stock feed

    A shallow embedding of [seller.py] (Ozon) and [market.py] (Yandex Market):
    the quantity and price normalizers, the chunking generator [divide], the
    two paginated catalog enumerators [get_offer_ids], the reconcilers
    [create_stocks] / [create_prices] and the two [main] orchestrators.

    Conventions.
    - A Python [str] is a Rocq [string] holding its UTF-8 encoding.  The
      operations the scripts apply to strings ([==], [split(".")], the
      character class [[^0-9]]) only inspect ASCII code points, and no byte of
      a multi-byte UTF-8 sequence is below 128, so they act on the encoding
      exactly as they act on the code points.
    - A Python [int] is a [Z].
    - A raised exception is the [Error] case of [result]; mutation of a list
      shared with the caller is explicit state passing: the function returns
      the list as it is left behind, next to its outcome. *)

From Stdlib Require Import ZArith List String Ascii Bool Arith Lia Permutation.
From Stdlib Require Import DecimalString DecimalNat.
Import ListNotations.
Open Scope string_scope.
Open Scope list_scope.
Open Scope Z_scope.

Set Implicit Arguments.

(** ** Exceptions and outcomes *)

(** The exception classes the scripts can meet.  [ValueError] is what
    [int(...)] and [range(...)] raise; the three [requests] classes are the
    transport failures of a remote call; [AttributeError] is a [.get] on a
    missing JSON member. *)
Inductive exn : Type :=
| ValueError
| AttributeError
| ReadTimeout
| ConnectionError
| HTTPError.

Inductive result (A : Type) : Type :=
| Ok (a : A)
| Error (e : exn).
Arguments Ok {A} a.
Arguments Error {A} e.

Definition bind {A B} (m : result A) (k : A -> result B) : result B :=
  match m with
  | Ok a => k a
  | Error e => Error e
  end.

Notation "x <- m ;; k" := (bind m (fun x => k))
  (at level 61, m at next level, right associativity).

(** [f] over a list, left to right, up to the first failure. *)
Fixpoint traverse {A B} (f : A -> result B) (l : list A) : result (list B) :=
  match l with
  | [] => Ok []
  | a :: l' => b <- f a ;; bs <- traverse f l' ;; Ok (b :: bs)
  end.

(** The spec's names for the two failures of a malformed feed record; in the
    scripts both are the [ValueError] of the [int] builtin. *)
Definition InvalidQuantity : exn := ValueError.
Definition InvalidPrice : exn := ValueError.

Definition is_ok {A} (m : result A) : bool :=
  match m with Ok _ => true | Error _ => false end.

(** ** Python string builtins used by the scripts *)

Module Py.

Definition is_digit (c : ascii) : bool :=
  let n := nat_of_ascii c in (48 <=? n)%nat && (n <=? 57)%nat.

Definition digit_val (c : ascii) : Z := Z.of_nat (nat_of_ascii c) - 48.

(** The ASCII whitespace [int] strips: TAB, LF, VT, FF, CR and the space. *)
Definition is_space (c : ascii) : bool :=
  let n := nat_of_ascii c in
  ((9 <=? n)%nat && (n <=? 13)%nat) || (n =? 32)%nat.

Fixpoint lstrip (l : list ascii) : list ascii :=
  match l with
  | c :: l' => if is_space c then lstrip l' else l
  | [] => []
  end.

Definition strip (l : list ascii) : list ascii :=
  rev (lstrip (rev (lstrip l))).

(** Digits after the first one: a single underscore may separate two
    digits; [after_us] records that the previous character was one. *)
Fixpoint int_digits (acc : Z) (after_us : bool) (l : list ascii) : option Z :=
  match l with
  | [] => if after_us then None else Some acc
  | c :: l' =>
      if is_digit c then int_digits (10 * acc + digit_val c) false l'
      else if Ascii.eqb c "_" then
             if after_us then None else int_digits acc true l'
      else None
  end.

Definition int_unsigned (l : list ascii) : option Z :=
  match l with
  | c :: l' => if is_digit c then int_digits (digit_val c) false l' else None
  | [] => None
  end.

Definition int_signed (l : list ascii) : option Z :=
  match l with
  | c :: l' =>
      if Ascii.eqb c "-" then option_map Z.opp (int_unsigned l')
      else if Ascii.eqb c "+" then int_unsigned l'
      else int_unsigned l
  | [] => None
  end.

(** [int(s)] for a [str] argument, base 10: surrounding whitespace is
    dropped, one sign is allowed, then decimal digits, two of which may be
    separated by one underscore.  Two limits of the model: it reads ASCII
    literals only, where the builtin also reads the decimal digits and the
    blanks of other scripts; and it takes the interpreter's cap on the length
    of a literal ([sys.set_int_max_str_digits], 4300 digits by default in
    recent versions) as lifted. *)
Definition int (s : string) : result Z :=
  match int_signed (strip (list_ascii_of_string s)) with
  | Some z => Ok z
  | None => Error ValueError
  end.

(** [s.split(".")[0]]: the part of [s] before its first full stop, all of
    [s] when it has none. *)
Fixpoint split_dot_0 (s : string) : string :=
  match s with
  | EmptyString => EmptyString
  | String c s' => if Ascii.eqb c "." then EmptyString else String c (split_dot_0 s')
  end.

(** [re.sub("[^0-9]", "", s)]: every character outside [0-9] is deleted. *)
Fixpoint sub_non_digits (s : string) : string :=
  match s with
  | EmptyString => EmptyString
  | String c s' =>
      if is_digit c then String c (sub_non_digits s') else sub_non_digits s'
  end.

(** [x in l] and [l.remove(x)] on a list of strings.  [remove] deletes the
    first occurrence only; the scripts call it under an [in] test, so its
    [ValueError] on a missing element cannot arise and the list is returned
    unchanged there. *)
Definition contains (x : string) (l : list string) : bool :=
  existsb (String.eqb x) l.

Fixpoint remove (x : string) (l : list string) : list string :=
  match l with
  | [] => []
  | y :: l' => if String.eqb x y then l' else y :: remove x l'
  end.

End Py.

(** ** Normalizers *)

(** The quantity rule written inline in both [create_stocks]
    (seller.py 261-267, market.py 227-233). *)
Definition quantity_normalizer (count : string) : result Z :=
  if String.eqb count ">10" then Ok 100
  else if String.eqb count "1" then Ok 0
  else Py.int count.

(** seller.py [price_conversion]: returns a [str], never raises on a [str]. *)
Definition price_conversion (price : string) : string :=
  Py.sub_non_digits (Py.split_dot_0 price).

(** market.py 298: [int(price_conversion(...))]. *)
Definition price_value (price : string) : result Z :=
  Py.int (price_conversion price).


(** ** Chunking *)

(** [len(range(lo, hi, step))] as the interpreter computes it. *)
Definition range_len (lo hi step : Z) : Z :=
  if 0 <? step then (if lo <? hi then (hi - lo - 1) / step + 1 else 0)
  else if step <? 0 then (if hi <? lo then (lo - hi - 1) / (- step) + 1 else 0)
  else 0.

(** [range(lo, hi, step)]; a zero step raises [ValueError]. *)
Definition range (lo hi step : Z) : result (list Z) :=
  if step =? 0 then Error ValueError
  else Ok (map (fun k => lo + Z.of_nat k * step)
               (seq 0 (Z.to_nat (range_len lo hi step)))).

(** [lst[i:j]] for [0 <= i] and [0 <= j], the only slices [divide] takes:
    both ends are clipped to the list, and the slice is empty when [j <= i]. *)
Definition slice {A} (lst : list A) (i j : Z) : list A :=
  firstn (Z.to_nat (j - i)) (skipn (Z.to_nat i) lst).

(** seller.py [divide], read as [list(divide(lst, n))]: every caller drains
    the generator at once. *)
Definition divide {A} (lst : list A) (n : Z) : result (list (list A)) :=
  idx <- range 0 (Z.of_nat (List.length lst)) n ;;
  Ok (map (fun i => slice lst i (i + n)) idx).

(** ** The feed *)

(** One row of the stock sheet, a dict of [download_stock]'s records.  The
    scripts read three of its keys: "Код" (the sku), "Количество" (the
    quantity label) and "Цена" (the price label); the fields below hold the
    [str] of each.  For the quantity this covers a cell that is a [str] or an
    [int] (then [int(cell)] is [int(str(cell))]); the price cell has to be a
    [str], since [price_conversion] splits it. *)
Record watch : Type := Watch {
  kod : string;
  kolichestvo : string;
  tsena : string
}.

(** ** Programs with a trace

    The orchestrators talk to the outside: they send update requests and
    print.  A program threads the list of events emitted so far; it can
    return, raise, or (result [None]) still be paging through a catalog when
    the page budget of the run is used up. *)

Section Prog.

Variable event : Type.

Definition prog (A : Type) : Type :=
  list event -> option (result A * list event).

Definition ret {A} (a : A) : prog A := fun tr => Some (Ok a, tr).

Definition lift {A} (r : result A) : prog A := fun tr => Some (r, tr).

Definition lift_paging {A} (o : option (result A)) : prog A :=
  fun tr => match o with
            | Some r => Some (r, tr)
            | None => None
            end.

Definition emit (ev : event) : prog unit := fun tr => Some (Ok tt, tr ++ [ev]).

Definition pbind {A B} (m : prog A) (k : A -> prog B) : prog B :=
  fun tr => match m tr with
            | Some (Ok a, tr') => k a tr'
            | Some (Error e, tr') => Some (Error e, tr')
            | None => None
            end.

(** [try: m  except ... as e: h e] *)
Definition try_except {A} (m : prog A) (h : exn -> prog A) : prog A :=
  fun tr => match m tr with
            | Some (Ok a, tr') => Some (Ok a, tr')
            | Some (Error e, tr') => h e tr'
            | None => None
            end.

(** [for chunk in chunks: send(chunk)], the chunks numbered from [k]. *)
Fixpoint for_each {A} (send : nat -> A -> prog unit) (k : nat) (chunks : list A)
  : prog unit :=
  match chunks with
  | [] => ret tt
  | c :: cs => pbind (send k c) (fun _ => for_each send (S k) cs)
  end.

End Prog.

Arguments ret {event A} a.
Arguments lift {event A} r.
Arguments lift_paging {event A} o.
Arguments emit {event} ev.

Notation "x <~ m ;; k" := (pbind m (fun x => k))
  (at level 61, m at next level, right associativity).
Notation "m ;;; k" := (pbind m (fun _ => k))
  (at level 61, right associativity).

(** ** seller.py *)

Module Seller.

(** An entry of "items" in an answer of [/v2/product/list]. *)
Record product : Type := Product {
  product_id : Z;
  product_offer_id : string
}.

(** The "result" member of an answer, with its keys "items", "total" and
    "last_id". *)
Record product_page : Type := ProductPage {
  page_items : list product;
  page_total : Z;
  page_last_id : string
}.

(** [get_product_list] seen from the loop that calls it: what the [k]-th
    request of one enumeration returns when it is sent with the cursor
    [last_id].  [Error] is a raised transport failure. *)
Definition listing : Type := nat -> string -> result product_page.

(** The [while True] loop of [get_offer_ids].  [pages] is not in the source:
    it is how many more requests this run is followed for, and [None] says
    the loop has not left by then. *)
Fixpoint get_offer_ids_loop (get_product_list : listing) (pages calls : nat)
    (last_id : string) (product_list : list product)
  : option (result (list product)) :=
  match pages with
  | O => None
  | S pages' =>
      match get_product_list calls last_id with
      | Error e => Some (Error e)
      | Ok some_prod =>
          let product_list := product_list ++ page_items some_prod in
          let total := page_total some_prod in
          let last_id := page_last_id some_prod in
          if total =? Z.of_nat (List.length product_list)
          then Some (Ok product_list)
          else get_offer_ids_loop get_product_list pages' (S calls)
                                  last_id product_list
      end
  end.

Definition get_offer_ids (get_product_list : listing) (pages : nat)
  : option (result (list string)) :=
  match get_offer_ids_loop get_product_list pages 0 "" [] with
  | Some (Ok product_list) => Some (Ok (map product_offer_id product_list))
  | Some (Error e) => Some (Error e)
  | None => None
  end.

(** An element of the "stocks" payload. *)
Record stock_item : Type := StockItem {
  offer_id : string;
  stock : Z
}.

(** An element of the "prices" payload; [price] is the [str] that
    [price_conversion] returns. *)
Record price_item : Type := PriceItem {
  auto_action_enabled : string;
  currency_code : string;
  price_offer_id : string;
  old_price : string;
  price : string
}.

(** The first loop of [create_stocks].  The caller's list [offer_ids] is
    mutated by [remove]; the second component is the list as the loop leaves
    it, also when [int] raises half-way. *)
Fixpoint create_stocks_loop (watch_remnants : list watch)
    (offer_ids : list string) (stocks : list stock_item)
  : result (list stock_item) * list string :=
  match watch_remnants with
  | [] => (Ok stocks, offer_ids)
  | watch :: rest =>
      if Py.contains (kod watch) offer_ids then
        match quantity_normalizer (kolichestvo watch) with
        | Ok stock =>
            create_stocks_loop rest (Py.remove (kod watch) offer_ids)
              (stocks ++ [StockItem (kod watch) stock])
        | Error e => (Error e, offer_ids)
        end
      else create_stocks_loop rest offer_ids stocks
  end.

Definition create_stocks (watch_remnants : list watch) (offer_ids : list string)
  : result (list stock_item) * list string :=
  match create_stocks_loop watch_remnants offer_ids [] with
  | (Ok stocks, offer_ids) =>
      (Ok (stocks ++ map (fun offer_id => StockItem offer_id 0) offer_ids),
       offer_ids)
  | (Error e, offer_ids) => (Error e, offer_ids)
  end.

Fixpoint create_prices_loop (watch_remnants : list watch)
    (offer_ids : list string) (prices : list price_item) : list price_item :=
  match watch_remnants with
  | [] => prices
  | watch :: rest =>
      if Py.contains (kod watch) offer_ids then
        create_prices_loop rest offer_ids
          (prices ++ [PriceItem "UNKNOWN" "RUB" (kod watch) "0"
                                (price_conversion (tsena watch))])
      else create_prices_loop rest offer_ids prices
  end.

Definition create_prices (watch_remnants : list watch) (offer_ids : list string)
  : list price_item :=
  create_prices_loop watch_remnants offer_ids [].

(** What a run does to the outside. *)
Inductive event : Type :=
| StocksSent (chunk : list stock_item)
| PricesSent (chunk : list price_item)
| Printed (error : option exn) (text : string).

(** The outside of a run: the marketplace's answers and the feed. *)
Record env : Type := Env {
  get_product_list : listing;
  download_stock : result (list watch);
  update_stocks_answer : nat -> list stock_item -> result unit;
  update_price_answer : nat -> list price_item -> result unit
}.

Definition update_stocks (w : env) (k : nat) (stocks : list stock_item)
  : prog event unit :=
  emit (StocksSent stocks) ;;; lift (update_stocks_answer w k stocks).

Definition update_price (w : env) (k : nat) (prices : list price_item)
  : prog event unit :=
  emit (PricesSent prices) ;;; lift (update_price_answer w k prices).

Definition upload_prices (w : env) (pages : nat) (watch_remnants : list watch)
  : prog event (list price_item) :=
  offer_ids <~ lift_paging (get_offer_ids (get_product_list w) pages) ;;
  let prices := create_prices watch_remnants offer_ids in
  chunks <~ lift (divide prices 1000) ;;
  for_each (update_price w) 0 chunks ;;;
  ret prices.

Definition upload_stocks (w : env) (pages : nat) (watch_remnants : list watch)
  : prog event (list stock_item * list stock_item) :=
  offer_ids <~ lift_paging (get_offer_ids (get_product_list w) pages) ;;
  stocks <~ lift (fst (create_stocks watch_remnants offer_ids)) ;;
  chunks <~ lift (divide stocks 100) ;;
  for_each (update_stocks w) 0 chunks ;;;
  ret (filter (fun s => negb (stock s =? 0)) stocks, stocks).

(** The three [except] clauses of [main]: what each prints. *)
Definition printed (e : exn) : event :=
  match e with
  | ReadTimeout => Printed None "Превышено время ожидания..."
  | ConnectionError => Printed (Some e) "Ошибка соединения"
  | _ => Printed (Some e) "ERROR_2"
  end.

Definition report (e : exn) : prog event unit := emit (printed e).

(** [main] from its [try] on (seller.py 434-450), the two variables read
    before it being in hand; [Startup.seller_main] is [main] from its first
    line.  [create_prices] is handed the very list [create_stocks] has just
    mutated: the second component of its result. *)
Definition main (w : env) (pages : nat) : prog event unit :=
  try_except
    (offer_ids <~ lift_paging (get_offer_ids (get_product_list w) pages) ;;
     watch_remnants <~ lift (download_stock w) ;;
     let (created, offer_ids) := create_stocks watch_remnants offer_ids in
     stocks <~ lift created ;;
     chunks <~ lift (divide stocks 100) ;;
     for_each (update_stocks w) 0 chunks ;;;
     let prices := create_prices watch_remnants offer_ids in
     chunks <~ lift (divide prices 900) ;;
     for_each (update_price w) 0 chunks)
    report.

End Seller.

(** ** market.py *)

Module Market.

(** An entry of "offerMappingEntries"; the script reads its
    ["offer"]["shopSku"]. *)
Record mapping_entry : Type := MappingEntry {
  shopSku : string
}.

(** The "result" member of an answer: its entries and
    ["paging"]["nextPageToken"], [None] when the key is absent. *)
Record mapping_page : Type := MappingPage {
  offerMappingEntries : list mapping_entry;
  nextPageToken : option string
}.

(** [not page] for a token: absent or empty. *)
Definition falsy (page : option string) : bool :=
  match page with
  | None => true
  | Some s => String.eqb s ""
  end.

Definition page_token (page : option string) : string :=
  match page with
  | None => ""
  | Some s => s
  end.

(** [get_product_list] for one campaign: the answer to the [k]-th request of
    an enumeration, sent with the token [page]. *)
Definition listing : Type := nat -> string -> result mapping_page.

(** The [while True] loop of [get_offer_ids]; [pages] as in [Seller]. *)
Fixpoint get_offer_ids_loop (get_product_list : listing) (pages calls : nat)
    (page : string) (product_list : list mapping_entry)
  : option (result (list mapping_entry)) :=
  match pages with
  | O => None
  | S pages' =>
      match get_product_list calls page with
      | Error e => Some (Error e)
      | Ok some_prod =>
          let product_list := product_list ++ offerMappingEntries some_prod in
          let page := nextPageToken some_prod in
          if falsy page then Some (Ok product_list)
          else get_offer_ids_loop get_product_list pages' (S calls)
                                  (page_token page) product_list
      end
  end.

Definition get_offer_ids (get_product_list : listing) (pages : nat)
  : option (result (list string)) :=
  match get_offer_ids_loop get_product_list pages 0 "" [] with
  | Some (Ok product_list) => Some (Ok (map shopSku product_list))
  | Some (Error e) => Some (Error e)
  | None => None
  end.

(** The one element of "items" in a stock record. *)
Record stock_entry : Type := StockEntry {
  count : Z;
  type : string;
  updatedAt : string
}.

(** An element of the "skus" payload. *)
Record stock_item : Type := StockItem {
  sku : string;
  warehouseId : string;
  items : list stock_entry
}.

Record price_body : Type := PriceBody {
  value : Z;
  currencyId : string
}.

(** An element of the "offers" payload. *)
Record price_item : Type := PriceItem {
  id : string;
  price : price_body
}.

(** The first loop of [create_stocks].  [date] is the clock reading taken at
    the top of the function, [utcnow()] cut to the second and printed. *)
Fixpoint create_stocks_loop (watch_remnants : list watch)
    (offer_ids : list string) (warehouse_id date : string)
    (stocks : list stock_item)
  : result (list stock_item) * list string :=
  match watch_remnants with
  | [] => (Ok stocks, offer_ids)
  | watch :: rest =>
      if Py.contains (kod watch) offer_ids then
        match quantity_normalizer (kolichestvo watch) with
        | Ok stock =>
            create_stocks_loop rest (Py.remove (kod watch) offer_ids)
              warehouse_id date
              (stocks ++ [StockItem (kod watch) warehouse_id
                                    [StockEntry stock "FIT" date]])
        | Error e => (Error e, offer_ids)
        end
      else create_stocks_loop rest offer_ids warehouse_id date stocks
  end.

Definition create_stocks (watch_remnants : list watch) (offer_ids : list string)
    (warehouse_id : string) (date : string)
  : result (list stock_item) * list string :=
  match create_stocks_loop watch_remnants offer_ids warehouse_id date [] with
  | (Ok stocks, offer_ids) =>
      (Ok (stocks ++
           map (fun offer_id =>
                  StockItem offer_id warehouse_id [StockEntry 0 "FIT" date])
               offer_ids),
       offer_ids)
  | (Error e, offer_ids) => (Error e, offer_ids)
  end.

Fixpoint create_prices_loop (watch_remnants : list watch)
    (offer_ids : list string) (prices : list price_item)
  : result (list price_item) :=
  match watch_remnants with
  | [] => Ok prices
  | watch :: rest =>
      if Py.contains (kod watch) offer_ids then
        value <- price_value (tsena watch) ;;
        create_prices_loop rest offer_ids
          (prices ++ [PriceItem (kod watch) (PriceBody value "RUR")])
      else create_prices_loop rest offer_ids prices
  end.

Definition create_prices (watch_remnants : list watch) (offer_ids : list string)
  : result (list price_item) :=
  create_prices_loop watch_remnants offer_ids [].

Inductive event : Type :=
| Enumerating (campaign_id : string)
| StocksSent (campaign_id : string) (chunk : list stock_item)
| PricesSent (campaign_id : string) (chunk : list price_item)
| Printed (error : option exn) (text : string).

(** The campaign an event belongs to, if any. *)
Definition campaign_of (ev : event) : option string :=
  match ev with
  | Enumerating c => Some c
  | StocksSent c _ => Some c
  | PricesSent c _ => Some c
  | Printed _ _ => None
  end.

(** The outside of a run: the configuration read from the environment, the
    feed, the marketplace's answers per campaign, and the clock ([utcnow k]
    is its [k]-th reading). *)
Record env : Type := Env {
  campaign_fbs_id : string;
  campaign_dbs_id : string;
  warehouse_fbs_id : string;
  warehouse_dbs_id : string;
  download_stock : result (list watch);
  get_product_list : string -> listing;
  update_stocks_answer : string -> nat -> list stock_item -> result unit;
  update_price_answer : string -> nat -> list price_item -> result unit;
  utcnow : nat -> string
}.

Definition enumerate (w : env) (pages : nat) (campaign_id : string)
  : prog event (list string) :=
  emit (Enumerating campaign_id) ;;;
  lift_paging (get_offer_ids (get_product_list w campaign_id) pages).

Definition update_stocks (w : env) (campaign_id : string) (k : nat)
    (stocks : list stock_item) : prog event unit :=
  emit (StocksSent campaign_id stocks) ;;;
  lift (update_stocks_answer w campaign_id k stocks).

Definition update_price (w : env) (campaign_id : string) (k : nat)
    (prices : list price_item) : prog event unit :=
  emit (PricesSent campaign_id prices) ;;;
  lift (update_price_answer w campaign_id k prices).

(** The body of the coroutine [upload_prices]. *)
Definition upload_prices (w : env) (pages : nat) (watch_remnants : list watch)
    (campaign_id : string) : prog event (list price_item) :=
  offer_ids <~ enumerate w pages campaign_id ;;
  prices <~ lift (create_prices watch_remnants offer_ids) ;;
  chunks <~ lift (divide prices 500) ;;
  for_each (update_price w campaign_id) 0 chunks ;;;
  ret prices.

(** The body of the coroutine [upload_stocks]; [clock] is how many times the
    clock was read before. *)
Definition upload_stocks (w : env) (pages : nat) (watch_remnants : list watch)
    (campaign_id warehouse_id : string) (clock : nat)
  : prog event (list stock_item * list stock_item) :=
  offer_ids <~ enumerate w pages campaign_id ;;
  stocks <~ lift (fst (create_stocks watch_remnants offer_ids warehouse_id
                                     (utcnow w clock))) ;;
  chunks <~ lift (divide stocks 2000) ;;
  for_each (update_stocks w campaign_id) 0 chunks ;;;
  ret (filter (fun s => match items s with
                        | it :: _ => negb (count it =? 0)
                        | [] => false
                        end) stocks,
       stocks).

(** One half of [main]'s [try] block: the stock pass of a campaign.  The
    call [upload_prices(...)] that ends it in the source only builds a
    coroutine object; [main] is not a coroutine and never awaits it, so its
    body does not run and the pass sends no prices. *)
Definition stock_pass (w : env) (pages : nat) (watch_remnants : list watch)
    (campaign_id warehouse_id : string) (clock : nat) : prog event unit :=
  offer_ids <~ enumerate w pages campaign_id ;;
  stocks <~ lift (fst (create_stocks watch_remnants offer_ids warehouse_id
                                     (utcnow w clock))) ;;
  chunks <~ lift (divide stocks 2000) ;;
  for_each (update_stocks w campaign_id) 0 chunks.

(** The three [except] clauses of [main]: what each prints. *)
Definition printed (e : exn) : event :=
  match e with
  | ReadTimeout => Printed None "Превышено время ожидания..."
  | ConnectionError => Printed (Some e) "Ошибка соединения"
  | _ => Printed (Some e) "ERROR_2"
  end.

Definition report (e : exn) : prog event unit := emit (printed e).

(** [main] from the download of the feed on (market.py 412-436), the five
    variables read before it being in hand as fields of [env];
    [Startup.market_main] is [main] from its first line.  The feed is
    downloaded outside the [try]; the FBS and the DBS pass stand one after the
    other inside the same [try]. *)
Definition main (w : env) (pages : nat) : prog event unit :=
  watch_remnants <~ lift (download_stock w) ;;
  try_except
    (stock_pass w pages watch_remnants
                (campaign_fbs_id w) (warehouse_fbs_id w) 0 ;;;
     stock_pass w pages watch_remnants
                (campaign_dbs_id w) (warehouse_dbs_id w) 1)
    report.

End Market.

(** ** The spec's wording of the normalizers, for comparison with the code *)

Module Spec.

(** "Truncate at the first literal [.]". *)
Definition truncate_at_first_dot (s : string) : string :=
  match index 0 "." s with
  | Some n => substring 0 n s
  | None => s
  end.

(** "Strip every non-digit character". *)
Definition strip_non_digits (s : string) : string :=
  string_of_list_ascii (filter Py.is_digit (list_ascii_of_string s)).

(** "Parse the remaining digits as an integer", most significant first. *)
Definition base10 (digits : string) : Z :=
  fold_left (fun acc c => 10 * acc + Py.digit_val c)
            (list_ascii_of_string digits) 0.

(** "Fails with [InvalidPrice] if no digits remain". *)
Definition PriceNormalizer (price : string) : result Z :=
  let digits := strip_non_digits (truncate_at_first_dot price) in
  if String.eqb digits "" then Error InvalidPrice else Ok (base10 digits).

(** The decimal numeral of a natural number, as the Standard Library prints
    it. *)
Definition numeral (n : nat) : string :=
  NilEmpty.string_of_uint (Nat.to_uint n).


(** "If its sku is in the catalog set": the test both reconcilers apply to
    a feed record. *)
Definition matched (offer_ids : list string) (w : watch) : bool :=
  Py.contains (kod w) offer_ids.

(** The price record each script builds for a matched feed record. *)
Definition seller_price (w : watch) : Seller.price_item :=
  Seller.PriceItem "UNKNOWN" "RUB" (kod w) "0" (price_conversion (tsena w)).

Definition market_price (w : watch) : result Market.price_item :=
  value <- price_value (tsena w) ;;
  Ok (Market.PriceItem (kod w) (Market.PriceBody value "RUR")).

(** The reconciler in the spec's words.  A stock update is a sku with its
    count; marketplace-specific fields are added by [seller_stock] and
    [market_stock]. *)
Definition StockUpdate : Type := (string * Z)%type.

(** "For each feed record, if its sku is in the catalog set: emit ...; mark
    the sku claimed (remove from the working set)": the feed records that
    emit, in feed order ... *)
Fixpoint claimed (F : list watch) (C : list string) : list watch :=
  match F with
  | [] => []
  | w :: F' =>
      if Py.contains (kod w) C then w :: claimed F' (Py.remove (kod w) C)
      else claimed F' C
  end.

(** ... and "every sku remaining unclaimed in the catalog set". *)
Fixpoint unclaimed (F : list watch) (C : list string) : list string :=
  match F with
  | [] => C
  | w :: F' =>
      if Py.contains (kod w) C then unclaimed F' (Py.remove (kod w) C)
      else unclaimed F' C
  end.

Definition feed_update (w : watch) : result StockUpdate :=
  count <- quantity_normalizer (kolichestvo w) ;; Ok (kod w, count).

Definition decommission (sku : string) : StockUpdate := (sku, 0).

(** "Feed-derived updates precede decommission updates; within each group,
    source order is preserved." *)
Definition reconcile (F : list watch) (C : list string)
  : result (list StockUpdate) :=
  l <- traverse feed_update (claimed F C) ;;
  Ok (l ++ map decommission (unclaimed F C)).

Definition seller_stock (u : StockUpdate) : Seller.stock_item :=
  Seller.StockItem (fst u) (snd u).

Definition market_stock (warehouse_id date : string) (u : StockUpdate)
  : Market.stock_item :=
  Market.StockItem (fst u) warehouse_id [Market.StockEntry (snd u) "FIT" date].

(** Some feed record carries the sku. *)
Definition in_feed (F : list watch) (sku : string) : bool :=
  existsb (fun w => String.eqb (kod w) sku) F.

(** "Consecutive chunks of at most [b] records": the first [m] of them. *)
Definition consecutive_chunks {A} (b : nat) (lst : list A) (m : nat)
  : list (list A) :=
  map (fun k => firstn b (skipn (k * b) lst)) (seq 0 m).

(** [ceil(L/B)] for [B > 0]. *)
Definition ceil_div (L B : Z) : Z := (L + B - 1) / B.

End Spec.

(** ** The course of an enumeration

    What [get_offer_ids] has in hand before its [k]-th request (requests are
    numbered from 0) if every earlier answer made it go on: the cursor it
    will send and the entries collected so far. *)

Module Paging.

Fixpoint market_before (srv : Market.listing) (k : nat)
  : string * list Market.mapping_entry :=
  match k with
  | O => ("", [])
  | S k' =>
      let (page, collected) := market_before srv k' in
      match srv k' page with
      | Ok p => (Market.page_token (Market.nextPageToken p),
                 collected ++ Market.offerMappingEntries p)
      | Error _ => (page, collected)
      end
  end.

Definition market_answer (srv : Market.listing) (k : nat)
  : result Market.mapping_page :=
  srv k (fst (market_before srv k)).

(** The [k]-th answer is a page whose next-page token is neither absent nor
    empty: the loop goes on. *)
Definition market_goes_on (srv : Market.listing) (k : nat) : bool :=
  match market_answer srv k with
  | Ok p => negb (Market.falsy (Market.nextPageToken p))
  | Error _ => false
  end.

(** What the loop leaves with at an answer that does not make it go on. *)
Definition market_outcome (srv : Market.listing) (k : nat)
  : result (list string) :=
  match market_answer srv k with
  | Ok p => Ok (map Market.shopSku
                    (snd (market_before srv k) ++ Market.offerMappingEntries p))
  | Error e => Error e
  end.

Fixpoint seller_before (srv : Seller.listing) (k : nat)
  : string * list Seller.product :=
  match k with
  | O => ("", [])
  | S k' =>
      let (last_id, collected) := seller_before srv k' in
      match srv k' last_id with
      | Ok p => (Seller.page_last_id p, collected ++ Seller.page_items p)
      | Error _ => (last_id, collected)
      end
  end.

Definition seller_answer (srv : Seller.listing) (k : nat)
  : result Seller.product_page :=
  srv k (fst (seller_before srv k)).

(** The [k]-th answer is a page whose total differs from the number of
    entries collected up to and including it: the loop goes on. *)
Definition seller_goes_on (srv : Seller.listing) (k : nat) : bool :=
  match seller_answer srv k with
  | Ok p => negb (Seller.page_total p =?
                  Z.of_nat (List.length (snd (seller_before srv k) ++
                                         Seller.page_items p)))
  | Error _ => false
  end.

Definition seller_outcome (srv : Seller.listing) (k : nat)
  : result (list string) :=
  match seller_answer srv k with
  | Ok p => Ok (map Seller.product_offer_id
                    (snd (seller_before srv k) ++ Seller.page_items p))
  | Error e => Error e
  end.

End Paging.

(** ** Concrete marketplaces used in examples *)

Module Scenario.

(** A listing that answers every request with the same non-empty token. *)
Definition market_stuck : Market.listing :=
  fun _ _ => Ok (Market.MappingPage [Market.MappingEntry "A"] (Some "x")).

(** A listing that reports a total of one and never delivers an entry. *)
Definition seller_stuck : Seller.listing :=
  fun _ _ => Ok (Seller.ProductPage [] 1 "").

(** Two pages, "A" then "B". *)
Definition market_two_pages : Market.listing :=
  fun k _ =>
    match k with
    | O => Ok (Market.MappingPage [Market.MappingEntry "A"] (Some "t1"))
    | _ => Ok (Market.MappingPage [Market.MappingEntry "B"] None)
    end.

Definition seller_two_pages : Seller.listing :=
  fun k _ =>
    match k with
    | O => Ok (Seller.ProductPage [Seller.Product 1 "A"] 2 "a")
    | _ => Ok (Seller.ProductPage [Seller.Product 2 "B"] 2 "b")
    end.

Definition feed : list watch := [Watch "A" "5" "100.00"].

(** Ozon lists the one sku "A", which the feed carries; every request
    succeeds. *)
Definition seller_env : Seller.env :=
  Seller.Env (fun _ _ => Ok (Seller.ProductPage [Seller.Product 1 "A"] 1 ""))
             (Ok feed)
             (fun _ _ => Ok tt)
             (fun _ _ => Ok tt).

(** Yandex Market: the FBS campaign cannot be reached, the DBS campaign
    lists the one sku "A". *)
Definition market_env : Market.env :=
  Market.Env "fbs" "dbs" "wh-fbs" "wh-dbs"
             (Ok feed)
             (fun campaign_id _ _ =>
                if String.eqb campaign_id "fbs" then Error ConnectionError
                else Ok (Market.MappingPage [Market.MappingEntry "A"] None))
             (fun _ _ _ => Ok tt)
             (fun _ _ _ => Ok tt)
             (fun _ => "2022-12-29T18:02:01Z").

End Scenario.

(** ** Order of the updates *)

Module Order.


End Order.

(** ** The two [main] from their first line *)

Module Startup.

(** [env.str(NAME)] returns the variable, or raises when it is unset (the
    [EnvError] of environs, a [ValueError]).  Each read is given by its
    outcome. *)
Definition env_str (outcome : result string) : result string := outcome.

(** seller.py [main], whole: the two reads stand before the [try]. *)
Definition seller_main (SELLER_TOKEN CLIENT_ID : result string)
    (w : Seller.env) (pages : nat) : prog Seller.event unit :=
  seller_token <~ lift (env_str SELLER_TOKEN) ;;
  client_id <~ lift (env_str CLIENT_ID) ;;
  Seller.main w pages.

(** The outside of a run of market.py with the four ids as [main] has read
    them. *)
Definition configured (w : Market.env)
    (campaign_fbs_id campaign_dbs_id warehouse_fbs_id warehouse_dbs_id : string)
  : Market.env :=
  Market.Env campaign_fbs_id campaign_dbs_id warehouse_fbs_id warehouse_dbs_id
             (Market.download_stock w) (Market.get_product_list w)
             (Market.update_stocks_answer w) (Market.update_price_answer w)
             (Market.utcnow w).

(** market.py [main], whole: the five reads stand before the download and
    the [try]. *)
Definition market_main
    (MARKET_TOKEN FBS_ID DBS_ID WAREHOUSE_FBS_ID WAREHOUSE_DBS_ID
     : result string)
    (w : Market.env) (pages : nat) : prog Market.event unit :=
  market_token <~ lift (env_str MARKET_TOKEN) ;;
  campaign_fbs_id <~ lift (env_str FBS_ID) ;;
  campaign_dbs_id <~ lift (env_str DBS_ID) ;;
  warehouse_fbs_id <~ lift (env_str WAREHOUSE_FBS_ID) ;;
  warehouse_dbs_id <~ lift (env_str WAREHOUSE_DBS_ID) ;;
  Market.main (configured w campaign_fbs_id campaign_dbs_id
                          warehouse_fbs_id warehouse_dbs_id) pages.

End Startup.

(** * Properties *)

(** ** Characters *)

Lemma is_digit_range (c : ascii) :
  Py.is_digit c = true <-> (48 <= nat_of_ascii c <= 57)%nat.
Proof.
  unfold Py.is_digit. rewrite andb_true_iff, !Nat.leb_le. tauto.
Qed.

Lemma digit_not_space (c : ascii) :
  Py.is_digit c = true -> Py.is_space c = false.
Proof.
  intros H. apply is_digit_range in H. unfold Py.is_space.
  destruct ((9 <=? nat_of_ascii c)%nat && (nat_of_ascii c <=? 13)%nat) eqn:E1.
  - apply andb_true_iff in E1. rewrite !Nat.leb_le in E1. lia.
  - destruct (Nat.eqb_spec (nat_of_ascii c) 32); [lia | reflexivity].
Qed.

Lemma digit_not_char (c d : ascii) :
  Py.is_digit c = true -> Py.is_digit d = false -> Ascii.eqb c d = false.
Proof.
  intros Hc Hd. destruct (Ascii.eqb_spec c d); [congruence | reflexivity].
Qed.


(** ** [int] on digit strings *)

Lemma lstrip_head (c : ascii) (l : list ascii) :
  Py.is_space c = false -> Py.lstrip (c :: l) = c :: l.
Proof. intros H. simpl. now rewrite H. Qed.

Lemma lstrip_no_space (l : list ascii) :
  Forall (fun c => Py.is_space c = false) l -> Py.lstrip l = l.
Proof.
  intros H. destruct H as [|c l Hc _]; [reflexivity|].
  apply lstrip_head, Hc.
Qed.

Lemma strip_no_space (l : list ascii) :
  Forall (fun c => Py.is_space c = false) l -> Py.strip l = l.
Proof.
  intros H. unfold Py.strip. rewrite (lstrip_no_space H).
  rewrite lstrip_no_space; [apply rev_involutive|].
  apply Forall_rev, H.
Qed.

Lemma strip_digits (l : list ascii) :
  Forall (fun c => Py.is_digit c = true) l -> Py.strip l = l.
Proof.
  intros H. apply strip_no_space.
  eapply Forall_impl; [|exact H]. apply digit_not_space.
Qed.

Lemma int_digits_horner (l : list ascii) :
  Forall (fun c => Py.is_digit c = true) l ->
  forall acc,
    Py.int_digits acc false l =
    Some (fold_left (fun a c => 10 * a + Py.digit_val c) l acc).
Proof.
  induction 1 as [|c l Hc _ IH]; intros acc; simpl; [reflexivity|].
  now rewrite Hc, IH.
Qed.

Lemma int_signed_digits (c : ascii) (l : list ascii) :
  Forall (fun c => Py.is_digit c = true) (c :: l) ->
  Py.int_signed (c :: l) =
  Some (fold_left (fun a c => 10 * a + Py.digit_val c) (c :: l) 0).
Proof.
  intros H. inversion H as [|? ? Hc Hl]; subst.
  unfold Py.int_signed.
  rewrite (digit_not_char c "-" Hc eq_refl), (digit_not_char c "+" Hc eq_refl).
  simpl. rewrite Hc. now rewrite (int_digits_horner Hl).
Qed.

Lemma int_of_digits (s : string) :
  s <> "" ->
  Forall (fun c => Py.is_digit c = true) (list_ascii_of_string s) ->
  Py.int s = Ok (Spec.base10 s).
Proof.
  intros Hne H. unfold Py.int, Spec.base10. rewrite (strip_digits H).
  destruct s as [|c s]; [congruence|].
  change (list_ascii_of_string (String c s))
    with (c :: list_ascii_of_string s) in *.
  now rewrite (int_signed_digits H).
Qed.

Lemma int_empty : Py.int "" = Error ValueError.
Proof. reflexivity. Qed.

Lemma int_error (s : string) (e : exn) : Py.int s = Error e -> e = ValueError.
Proof.
  unfold Py.int. destruct (Py.int_signed _); intros H; congruence.
Qed.







(** ** Decimal numerals *)







Lemma quantity_normalizer_error (label : string) (e : exn) :
  quantity_normalizer label = Error e -> e = ValueError.
Proof.
  unfold quantity_normalizer.
  destruct (String.eqb label ">10"); [discriminate|].
  destruct (String.eqb label "1"); [discriminate|]. apply int_error.
Qed.



(** ** The price normalizer *)

Lemma split_dot_0_spec (s : string) :
  Py.split_dot_0 s = Spec.truncate_at_first_dot s.
Proof.
  unfold Spec.truncate_at_first_dot.
  induction s as [|c s IH]; [reflexivity|].
  cbn [Py.split_dot_0 index prefix].
  destruct (Ascii.eqb_spec c ".") as [->|Hc].
  - destruct (ascii_dec "." "."); [|congruence].
    destruct s; reflexivity.
  - destruct (ascii_dec "." c) as [E|_]; [congruence|].
    rewrite IH. destruct (index 0 "." s); reflexivity.
Qed.

Lemma sub_non_digits_spec (s : string) :
  Py.sub_non_digits s = Spec.strip_non_digits s.
Proof.
  unfold Spec.strip_non_digits.
  induction s as [|c s IH]; [reflexivity|]. simpl.
  destruct (Py.is_digit c); simpl; now rewrite IH.
Qed.

Lemma sub_non_digits_digits (s : string) :
  Forall (fun c => Py.is_digit c = true)
         (list_ascii_of_string (Py.sub_non_digits s)).
Proof.
  induction s as [|c s IH]; [constructor|]. simpl.
  destruct (Py.is_digit c) eqn:E; [|exact IH].
  constructor; assumption.
Qed.

Lemma price_conversion_spec (price : string) :
  price_conversion price =
  Spec.strip_non_digits (Spec.truncate_at_first_dot price).
Proof.
  unfold price_conversion. now rewrite sub_non_digits_spec, split_dot_0_spec.
Qed.

Lemma price_value_spec (price : string) :
  price_value price = Spec.PriceNormalizer price.
Proof.
  unfold price_value, Spec.PriceNormalizer.
  rewrite <- price_conversion_spec.
  destruct (String.eqb_spec (price_conversion price) "") as [E|E].
  - rewrite E. reflexivity.
  - apply int_of_digits; [exact E|]. apply sub_non_digits_digits.
Qed.

(** C6, as amended.  On every input [price_conversion] returns a string:
    the decimal digits of the part of its argument before the first full
    stop, in order; it does not parse them.  The integer arises where
    market.py applies [int] to that string, and is then the base-10 integer
    these digits write (a failure when there is none).  For "5'990.00 руб."
    the string is "5990" and the integer 5990, for "1234" they are "1234"
    and 1234. *)
Theorem price_normalizer_follows_spec :
  (forall price : string,
     price_conversion price =
       Spec.strip_non_digits (Spec.truncate_at_first_dot price) /\
     price_value price = Spec.PriceNormalizer price) /\
  price_conversion "5'990.00 руб." = "5990" /\
  price_value "5'990.00 руб." = Ok 5990 /\
  price_conversion "1234" = "1234" /\
  price_value "1234" = Ok 1234.
Proof.
  split; [|repeat split; reflexivity].
  intros price. split; [apply price_conversion_spec | apply price_value_spec].
Qed.

(** C6, the claim as stated fails for [price_conversion], the function it
    cites: the result is the digit string, not the integer.  On "0012.0" the
    spec's normalizer yields 12, written "12", where [price_conversion]
    returns "0012", which seller.py's [create_prices] sends as the price; on
    "руб." the spec's normalizer fails where [price_conversion] returns the
    empty string. *)
Lemma price_conversion_not_parsed_counterexample :
  price_conversion "0012.0" = "0012" /\
  Spec.PriceNormalizer "0012.0" = Ok 12 /\
  Spec.numeral 12 = "12" /\
  Seller.create_prices [Watch "A" "5" "0012.0"] ["A"] =
    [Seller.PriceItem "UNKNOWN" "RUB" "A" "0" "0012"] /\
  price_conversion "руб." = "" /\
  Spec.PriceNormalizer "руб." = Error InvalidPrice.
Proof. repeat split; reflexivity. Qed.

(** ** [traverse] *)

Lemma traverse_ok_length {A B} (f : A -> result B) (l : list A) (bs : list B) :
  traverse f l = Ok bs -> List.length bs = List.length l.
Proof.
  revert bs. induction l as [|a l IH]; intros bs; simpl.
  - intros [= <-]. reflexivity.
  - destruct (f a); [|discriminate]. simpl.
    destruct (traverse f l); [|discriminate]. simpl.
    intros [= <-]. simpl. now rewrite (IH _ eq_refl).
Qed.

Lemma traverse_error {A B} (f : A -> result B) (l : list A) (e : exn) :
  traverse f l = Error e -> exists a, In a l /\ f a = Error e.
Proof.
  induction l as [|a l IH]; simpl; [discriminate|].
  destruct (f a) eqn:Ea; simpl.
  - destruct (traverse f l); simpl; [discriminate|].
    intros [= <-]. destruct (IH eq_refl) as (a' & Hin & Ha').
    exists a'. split; [now right | exact Ha'].
  - intros [= <-]. exists a. split; [now left | exact Ea].
Qed.

Lemma traverse_fails {A B} (f : A -> result B) (l : list A) (a : A) (e : exn) :
  In a l -> f a = Error e -> exists e', traverse f l = Error e'.
Proof.
  intros Hin Ha. induction l as [|x l IH]; [destruct Hin|]. simpl.
  destruct (f x) eqn:Ex; simpl; [|eauto].
  destruct Hin as [->|Hin]; [congruence|].
  destruct (IH Hin) as (e' & ->). simpl. eauto.
Qed.

(** ** [create_prices] *)

Lemma seller_create_prices_loop (F : list watch) (C : list string) :
  forall acc,
    Seller.create_prices_loop F C acc =
    acc ++ map Spec.seller_price (filter (Spec.matched C) F).
Proof.
  induction F as [|w F IH]; intros acc; simpl.
  - now rewrite app_nil_r.
  - unfold Spec.matched at 1.
    destruct (Py.contains (kod w) C); [|apply IH].
    rewrite IH, <- app_assoc. reflexivity.
Qed.

Lemma seller_create_prices_map (F : list watch) (C : list string) :
  Seller.create_prices F C = map Spec.seller_price (filter (Spec.matched C) F).
Proof. apply seller_create_prices_loop. Qed.

Lemma market_create_prices_loop (F : list watch) (C : list string) :
  forall acc,
    Market.create_prices_loop F C acc =
    (l <- traverse Spec.market_price (filter (Spec.matched C) F) ;;
     Ok (acc ++ l)).
Proof.
  induction F as [|w F IH]; intros acc; simpl.
  - now rewrite app_nil_r.
  - unfold Spec.matched at 1.
    destruct (Py.contains (kod w) C); [|apply IH]. simpl.
    unfold Spec.market_price at 1.
    destruct (price_value (tsena w)) as [v|e]; simpl; [|reflexivity].
    rewrite IH.
    destruct (traverse Spec.market_price (filter (Spec.matched C) F));
      simpl; [|reflexivity].
    now rewrite <- app_assoc.
Qed.

Lemma market_create_prices_traverse (F : list watch) (C : list string) :
  Market.create_prices F C =
  traverse Spec.market_price (filter (Spec.matched C) F).
Proof.
  unfold Market.create_prices. rewrite market_create_prices_loop.
  destruct (traverse _ _); reflexivity.
Qed.

Lemma market_price_error (w : watch) (e : exn) :
  Spec.market_price w = Error e -> e = ValueError.
Proof.
  unfold Spec.market_price, price_value.
  destruct (Py.int _) eqn:E; simpl; [discriminate|].
  intros [= <-]. exact (int_error _ E).
Qed.

(** C5, as amended.  When no digit remains (after the cut at the first full
    stop and the removal of non-digits), [price_conversion] itself does not
    fail: it returns the empty string.  market.py passes it to [int], so its
    [create_prices] fails with [ValueError] (the spec's [InvalidPrice]) as
    soon as the feed holds a matched record with such a price; seller.py does
    not, and its [create_prices] emits a price record whose price is the
    empty string. *)
Theorem price_without_digits (price : string) :
  Spec.strip_non_digits (Spec.truncate_at_first_dot price) = "" ->
  price_conversion price = "" /\
  price_value price = Error InvalidPrice /\
  forall (w : watch) (F : list watch) (C : list string),
    tsena w = price -> In w F -> Py.contains (kod w) C = true ->
    Market.create_prices F C = Error InvalidPrice /\
    In (Seller.PriceItem "UNKNOWN" "RUB" (kod w) "0" "")
       (Seller.create_prices F C).
Proof.
  intros H.
  assert (Hc : price_conversion price = "")
    by now rewrite price_conversion_spec.
  assert (Hv : price_value price = Error InvalidPrice)
    by (unfold price_value; now rewrite Hc).
  split; [exact Hc|]. split; [exact Hv|].
  intros w F C Hp Hin Hm. split.
  - rewrite market_create_prices_traverse.
    assert (Hw : Spec.market_price w = Error InvalidPrice)
      by (unfold Spec.market_price; now rewrite Hp, Hv).
    destruct (traverse_fails Spec.market_price (filter (Spec.matched C) F) w)
      with (e := InvalidPrice) as (e' & He'); [|exact Hw|].
    + apply filter_In. split; assumption.
    + rewrite He'. f_equal.
      destruct (traverse_error _ _ He') as (a & _ & Ha).
      exact (market_price_error _ Ha).
  - rewrite seller_create_prices_map.
    apply in_map_iff. exists w. split.
    + unfold Spec.seller_price. now rewrite Hp, Hc.
    + apply filter_In. split; assumption.
Qed.

Lemma price_without_digits_witness :
  price_conversion "руб." = "" /\
  price_value "руб." = Error InvalidPrice /\
  Market.create_prices [Watch "A" "5" "руб."] ["A"] = Error InvalidPrice /\
  In (Seller.PriceItem "UNKNOWN" "RUB" "A" "0" "")
     (Seller.create_prices [Watch "A" "5" "руб."] ["A"]).
Proof.
  destruct (price_without_digits "руб." eq_refl) as (Hc & Hv & Hall).
  destruct (Hall (Watch "A" "5" "руб.") [Watch "A" "5" "руб."] ["A"]
                 eq_refl (or_introl eq_refl) eq_refl) as (Hm & Hs).
  repeat split; assumption.
Defined.

(** C5, the claim as stated fails: seller.py's [create_prices] does not fail
    on the digit-free price "руб." of a matched record; it returns a record
    with an empty price. *)
Lemma price_without_digits_counterexample :
  price_conversion "руб." = "" /\
  Seller.create_prices [Watch "A" "5" "руб."] ["A"] =
  [Seller.PriceItem "UNKNOWN" "RUB" "A" "0" ""].
Proof. split; reflexivity. Qed.

(** ** [divide] *)

Section Divide.

Context {A : Type}.
Implicit Types (lst : list A) (b m k : nat).

Lemma consecutive_chunks_S b lst m :
  Spec.consecutive_chunks b lst (S m) =
  firstn b lst :: Spec.consecutive_chunks b (skipn b lst) m.
Proof.
  unfold Spec.consecutive_chunks.
  cbn [seq map]. rewrite <- seq_shift, map_map. f_equal.
  apply map_ext. intros k. rewrite skipn_skipn. f_equal. f_equal. lia.
Qed.

Lemma consecutive_chunks_concat b m : forall lst,
  (List.length lst <= m * b)%nat ->
  List.concat (Spec.consecutive_chunks b lst m) = lst.
Proof.
  induction m as [|m IH]; intros lst Hlen.
  - destruct lst; [reflexivity | simpl in Hlen; lia].
  - rewrite consecutive_chunks_S. simpl. rewrite IH.
    + apply firstn_skipn.
    + rewrite length_skipn. lia.
Qed.

Lemma consecutive_chunks_length b lst m :
  List.length (Spec.consecutive_chunks b lst m) = m.
Proof.
  unfold Spec.consecutive_chunks. now rewrite length_map, length_seq.
Qed.

Lemma consecutive_chunks_nth b lst m k c :
  nth_error (Spec.consecutive_chunks b lst m) k = Some c ->
  (k < m)%nat /\ c = firstn b (skipn (k * b) lst).
Proof.
  intros H.
  assert (Hk : (k < m)%nat).
  { rewrite <- (consecutive_chunks_length b lst m).
    apply nth_error_Some. congruence. }
  split; [exact Hk|].
  unfold Spec.consecutive_chunks in H.
  rewrite nth_error_map, nth_error_seq in H.
  destruct (Nat.ltb_spec k m); [|lia]. simpl in H. congruence.
Qed.

Lemma range_len_ceil (L n : Z) :
  0 <= L -> 0 < n -> range_len 0 L n = Spec.ceil_div L n.
Proof.
  intros HL Hn. unfold range_len, Spec.ceil_div.
  destruct (Z.ltb_spec 0 n); [|lia].
  destruct (Z.ltb_spec 0 L).
  - replace (L + n - 1) with (L - 0 - 1 + 1 * n) by lia.
    rewrite Z.div_add by lia. reflexivity.
  - replace L with 0 by lia. simpl. symmetry. apply Z.div_small. lia.
Qed.

Lemma ceil_div_bounds (L n : Z) :
  0 <= L -> 0 < n ->
  0 <= Spec.ceil_div L n /\
  L <= Spec.ceil_div L n * n /\
  (Spec.ceil_div L n - 1) * n < L.
Proof.
  intros HL Hn. unfold Spec.ceil_div.
  pose proof (Z.div_mod (L + n - 1) n ltac:(lia)) as E.
  pose proof (Z.mod_pos_bound (L + n - 1) n Hn) as B.
  assert (0 <= (L + n - 1) / n) by (apply Z.div_pos; lia).
  nia.
Qed.

Lemma divide_chunks lst (n : Z) :
  0 < n ->
  divide lst n =
  Ok (Spec.consecutive_chunks (Z.to_nat n) lst
        (Z.to_nat (Spec.ceil_div (Z.of_nat (List.length lst)) n))).
Proof.
  intros Hn. unfold divide, range.
  destruct (Z.eqb_spec n 0); [lia|]. simpl. f_equal.
  rewrite map_map, range_len_ceil by lia.
  unfold Spec.consecutive_chunks. apply map_ext. intros k.
  unfold slice. f_equal; [f_equal; lia|].
  f_equal. rewrite <- (Nat2Z.id (k * Z.to_nat n)). f_equal.
  rewrite Nat2Z.inj_mul, Z2Nat.id by lia. lia.
Qed.

End Divide.

(** C7.  For a ceiling [B > 0], [divide] returns [ceil(L/B)] chunks whose
    concatenation is the list itself (so every record lies whole in one
    chunk, in the original order); every chunk but the last holds exactly
    [B] records and the last holds between 1 and [B]. *)
Theorem divide_chunking {A : Type} (lst : list A) (B : Z) :
  0 < B ->
  exists chunks : list (list A),
    divide lst B = Ok chunks /\
    Z.of_nat (List.length chunks) =
      Spec.ceil_div (Z.of_nat (List.length lst)) B /\
    List.concat chunks = lst /\
    forall (k : nat) (c : list A),
      nth_error chunks k = Some c ->
      if (S k <? List.length chunks)%nat
      then Z.of_nat (List.length c) = B
      else 0 < Z.of_nat (List.length c) <= B.
Proof.
  intros HB. set (L := Z.of_nat (List.length lst)).
  destruct (@ceil_div_bounds L B ltac:(lia) HB) as (Hm0 & Hup & Hlow).
  eexists. split; [apply divide_chunks, HB|]. fold L.
  rewrite consecutive_chunks_length. split; [lia|]. split.
  - apply consecutive_chunks_concat. nia.
  - intros k c Hk.
    apply consecutive_chunks_nth in Hk. destruct Hk as (Hk & ->).
    rewrite length_firstn, length_skipn.
    destruct (Nat.ltb_spec (S k) (Z.to_nat (Spec.ceil_div L B))); nia.
Qed.

Lemma divide_chunking_witness :
  exists chunks : list (list Z),
    divide [1; 2; 3; 4; 5] 2 = Ok chunks /\
    Z.of_nat (List.length chunks) = 3 /\
    List.concat chunks = [1; 2; 3; 4; 5].
Proof.
  destruct (divide_chunking [1; 2; 3; 4; 5] (B := 2) eq_refl)
    as (chunks & Hd & Hlen & Hcat & _).
  exists chunks. repeat split; assumption.
Defined.

(** ** List membership and removal *)

Lemma contains_In (x : string) (l : list string) :
  Py.contains x l = true <-> In x l.
Proof.
  unfold Py.contains. rewrite existsb_exists. split.
  - intros (y & Hy & E). apply String.eqb_eq in E. now subst.
  - intros H. exists x. split; [exact H | apply String.eqb_refl].
Qed.

Lemma contains_false (x : string) (l : list string) :
  Py.contains x l = false <-> ~ In x l.
Proof.
  rewrite <- contains_In. destruct (Py.contains x l); split; congruence.
Qed.

Lemma filter_twice {A} (f g : A -> bool) (l : list A) :
  filter f (filter g l) = filter (fun a => g a && f a) l.
Proof.
  induction l as [|a l IH]; [reflexivity|]. simpl.
  destruct (g a); simpl; [destruct (f a)|]; now rewrite IH.
Qed.

Lemma remove_perm (x : string) (l : list string) :
  In x l -> Permutation (x :: Py.remove x l) l.
Proof.
  induction l as [|y l IH]; intros Hin; [destruct Hin|]. simpl.
  destruct (String.eqb_spec x y) as [->|Hxy]; [reflexivity|].
  destruct Hin as [->|Hin]; [congruence|].
  rewrite perm_swap. constructor. now apply IH.
Qed.

Lemma remove_NoDup_filter (x : string) (l : list string) :
  NoDup l -> Py.remove x l = filter (fun y => negb (String.eqb x y)) l.
Proof.
  induction 1 as [|y l Hy Hl IH]; [reflexivity|]. simpl.
  destruct (String.eqb_spec x y) as [->|Hxy]; simpl.
  - symmetry. apply forallb_filter_id. apply forallb_forall.
    intros z Hz. destruct (String.eqb_spec y z); [congruence | reflexivity].
  - now rewrite IH.
Qed.

Lemma remove_NoDup (x : string) (l : list string) :
  NoDup l -> NoDup (Py.remove x l).
Proof.
  intros H. rewrite (remove_NoDup_filter x H). now apply NoDup_filter.
Qed.

Lemma remove_In (x y : string) (l : list string) :
  NoDup l -> In y (Py.remove x l) <-> In y l /\ x <> y.
Proof.
  intros H. rewrite (remove_NoDup_filter x H), filter_In.
  destruct (String.eqb_spec x y); simpl; intuition congruence.
Qed.

Lemma in_feed_In (F : list watch) (sku : string) :
  Spec.in_feed F sku = true <-> exists w, In w F /\ kod w = sku.
Proof.
  unfold Spec.in_feed. rewrite existsb_exists.
  split; intros (w & Hw & E); exists w; split; try assumption;
    now apply String.eqb_eq.
Qed.

(** ** Claimed and unclaimed skus *)

Lemma claimed_unclaimed_perm (F : list watch) : forall C : list string,
  Permutation (map kod (Spec.claimed F C) ++ Spec.unclaimed F C) C.
Proof.
  induction F as [|w F IH]; intros C; simpl; [reflexivity|].
  destruct (Py.contains (kod w) C) eqn:E; [|apply IH]. simpl.
  rewrite IH. apply remove_perm. now apply contains_In.
Qed.

Lemma unclaimed_NoDup (F : list watch) : forall C : list string,
  NoDup C ->
  Spec.unclaimed F C = filter (fun sku => negb (Spec.in_feed F sku)) C.
Proof.
  induction F as [|w F IH]; intros C HC; simpl.
  - symmetry. apply forallb_filter_id. now apply forallb_forall.
  - destruct (Py.contains (kod w) C) eqn:E.
    + rewrite IH by now apply remove_NoDup.
      rewrite (remove_NoDup_filter (kod w) HC), filter_twice.
      apply filter_ext. intros sku.
      destruct (String.eqb (kod w) sku); reflexivity.
    + rewrite IH by exact HC. apply filter_ext_in. intros sku Hsku.
      apply contains_false in E.
      destruct (String.eqb_spec (kod w) sku); [congruence | reflexivity].
Qed.

Lemma claimed_first (F : list watch) : forall (C : list string) (w : watch),
  NoDup C -> In w (Spec.claimed F C) ->
  In (kod w) C /\
  exists F1 F2, F = F1 ++ w :: F2 /\ forall w', In w' F1 -> kod w' <> kod w.
Proof.
  induction F as [|x F IH]; intros C w HC Hin; simpl in Hin; [destruct Hin|].
  destruct (Py.contains (kod x) C) eqn:E.
  - destruct Hin as [->|Hin].
    + split; [now apply contains_In|].
      exists [], F. split; [reflexivity | intros w' []].
    + destruct (IH _ _ (remove_NoDup (kod x) HC) Hin) as (HinC & F1 & F2 & -> & Hf).
      apply (remove_In _ _ HC) in HinC. destruct HinC as (HinC & Hne).
      split; [exact HinC|].
      exists (x :: F1), F2. split; [reflexivity|].
      intros w' [<-|Hw']; [exact Hne | now apply Hf].
  - destruct (IH _ _ HC Hin) as (HinC & F1 & F2 & -> & Hf).
    split; [exact HinC|].
    exists (x :: F1), F2. split; [reflexivity|].
    intros w' [<-|Hw']; [|now apply Hf].
    apply contains_false in E. congruence.
Qed.

Lemma claimed_incl (F : list watch) : forall (C : list string) (w : watch),
  In w (Spec.claimed F C) -> In w F /\ In (kod w) C.
Proof.
  induction F as [|x F IH]; intros C w Hin; simpl in Hin; [destruct Hin|].
  destruct (Py.contains (kod x) C) eqn:E.
  - destruct Hin as [->|Hin].
    + split; [now left | now apply contains_In].
    + destruct (IH _ _ Hin) as (H1 & H2). split; [now right|].
      pose proof (remove_perm (kod x) C (proj1 (contains_In _ _) E)) as P.
      apply (Permutation_in _ P). now right.
  - destruct (IH _ _ Hin) as (H1 & H2). split; [now right | exact H2].
Qed.

Lemma traverse_total {A B} (f : A -> result B) (l : list A) :
  Forall (fun a => is_ok (f a) = true) l -> exists bs, traverse f l = Ok bs.
Proof.
  induction 1 as [|a l Ha _ (bs & IH)]; simpl; [eauto|].
  destruct (f a) as [b|]; [|discriminate]. rewrite IH. simpl. eauto.
Qed.

Lemma traverse_Forall2 {A B} (f : A -> result B) (l : list A) :
  forall bs, traverse f l = Ok bs -> Forall2 (fun a b => f a = Ok b) l bs.
Proof.
  induction l as [|a l IH]; intros bs; simpl.
  - intros [= <-]. constructor.
  - destruct (f a) as [b|] eqn:Ea; [|discriminate]. simpl.
    destruct (traverse f l) as [bs'|]; [|discriminate]. simpl.
    intros [= <-]. constructor; [exact Ea | now apply IH].
Qed.

Lemma traverse_total_Forall2 {A B} (f : A -> result B) (l : list A) :
  forall bs, Forall2 (fun a b => f a = Ok b) l bs -> traverse f l = Ok bs.
Proof.
  induction 1 as [|a b l bs Ha _ IH]; [reflexivity|]. simpl.
  now rewrite Ha, IH.
Qed.

(** ** [create_stocks] against the spec's reconciler *)

Lemma seller_create_stocks_loop (F : list watch) :
  forall (C : list string) (acc : list Seller.stock_item),
    Seller.create_stocks_loop F C acc =
    match traverse Spec.feed_update (Spec.claimed F C) with
    | Ok l => (Ok (acc ++ map Spec.seller_stock l), Spec.unclaimed F C)
    | Error e => (Error e, snd (Seller.create_stocks_loop F C acc))
    end.
Proof.
  induction F as [|w F IH]; intros C acc; simpl.
  - now rewrite app_nil_r.
  - destruct (Py.contains (kod w) C); [|apply IH].
    cbn [traverse].
    replace (Spec.feed_update w)
      with (count <- quantity_normalizer (kolichestvo w) ;; Ok (kod w, count))
      by reflexivity.
    destruct (quantity_normalizer (kolichestvo w)) as [q|e]; simpl;
      [|reflexivity].
    rewrite IH.
    destruct (traverse Spec.feed_update _); simpl; [|reflexivity].
    now rewrite <- app_assoc.
Qed.

Lemma market_create_stocks_loop (F : list watch) (warehouse_id date : string) :
  forall (C : list string) (acc : list Market.stock_item),
    Market.create_stocks_loop F C warehouse_id date acc =
    match traverse Spec.feed_update (Spec.claimed F C) with
    | Ok l => (Ok (acc ++ map (Spec.market_stock warehouse_id date) l),
               Spec.unclaimed F C)
    | Error e =>
        (Error e, snd (Market.create_stocks_loop F C warehouse_id date acc))
    end.
Proof.
  induction F as [|w F IH]; intros C acc; simpl.
  - now rewrite app_nil_r.
  - destruct (Py.contains (kod w) C); [|apply IH].
    cbn [traverse].
    replace (Spec.feed_update w)
      with (count <- quantity_normalizer (kolichestvo w) ;; Ok (kod w, count))
      by reflexivity.
    destruct (quantity_normalizer (kolichestvo w)) as [q|e]; simpl;
      [|reflexivity].
    rewrite IH.
    destruct (traverse Spec.feed_update _); simpl; [|reflexivity].
    now rewrite <- app_assoc.
Qed.

Lemma seller_create_stocks_ok (F : list watch) (C : list string)
      (us : list Spec.StockUpdate) :
  Spec.reconcile F C = Ok us ->
  Seller.create_stocks F C = (Ok (map Spec.seller_stock us), Spec.unclaimed F C).
Proof.
  unfold Spec.reconcile, Seller.create_stocks.
  rewrite seller_create_stocks_loop.
  destruct (traverse Spec.feed_update _) as [l|]; simpl; [|discriminate].
  intros [= <-]. rewrite map_app, map_map. reflexivity.
Qed.

Lemma market_create_stocks_ok (F : list watch) (C : list string)
      (warehouse_id date : string) (us : list Spec.StockUpdate) :
  Spec.reconcile F C = Ok us ->
  Market.create_stocks F C warehouse_id date =
  (Ok (map (Spec.market_stock warehouse_id date) us), Spec.unclaimed F C).
Proof.
  unfold Spec.reconcile, Market.create_stocks.
  rewrite market_create_stocks_loop.
  destruct (traverse Spec.feed_update _) as [l|]; simpl; [|discriminate].
  intros [= <-]. rewrite map_app, map_map. reflexivity.
Qed.

Lemma seller_create_stocks_error (F : list watch) (C : list string) (e : exn) :
  Spec.reconcile F C = Error e -> fst (Seller.create_stocks F C) = Error e.
Proof.
  unfold Spec.reconcile, Seller.create_stocks.
  rewrite seller_create_stocks_loop.
  destruct (traverse Spec.feed_update _) as [l|]; simpl; congruence.
Qed.

Lemma market_create_stocks_error (F : list watch) (C : list string)
      (warehouse_id date : string) (e : exn) :
  Spec.reconcile F C = Error e ->
  fst (Market.create_stocks F C warehouse_id date) = Error e.
Proof.
  unfold Spec.reconcile, Market.create_stocks.
  rewrite market_create_stocks_loop.
  destruct (traverse Spec.feed_update _) as [l|]; simpl; congruence.
Qed.

(** ** The reconciler's invariants *)

Lemma reconcile_total (F : list watch) (C : list string) :
  Forall (fun w => In (kod w) C ->
                   is_ok (quantity_normalizer (kolichestvo w)) = true) F ->
  exists us, Spec.reconcile F C = Ok us.
Proof.
  intros H. unfold Spec.reconcile.
  destruct (traverse_total Spec.feed_update (l := Spec.claimed F C))
    as (l & ->); [|simpl; eauto].
  apply Forall_forall. intros w Hw.
  destruct (claimed_incl _ _ _ Hw) as (HF & HC).
  rewrite Forall_forall in H. specialize (H w HF HC).
  unfold Spec.feed_update.
  destruct (quantity_normalizer (kolichestvo w)); [reflexivity | discriminate].
Qed.

Lemma feed_updates_skus (l : list watch) (us : list Spec.StockUpdate) :
  Forall2 (fun w u => Spec.feed_update w = Ok u) l us ->
  map fst us = map kod l.
Proof.
  induction 1 as [|w u l us Hw _ IH]; [reflexivity|]. simpl.
  rewrite IH. f_equal. unfold Spec.feed_update in Hw.
  destruct (quantity_normalizer (kolichestvo w)); [|discriminate].
  simpl in Hw. now injection Hw as <-.
Qed.

Lemma feed_updates_In (l : list watch) (us : list Spec.StockUpdate)
      (u : Spec.StockUpdate) :
  Forall2 (fun w u => Spec.feed_update w = Ok u) l us -> In u us ->
  exists w, In w l /\ kod w = fst u /\
            quantity_normalizer (kolichestvo w) = Ok (snd u).
Proof.
  induction 1 as [|w u' l us Hw _ IH]; intros Hin; [destruct Hin|].
  destruct Hin as [->|Hin].
  - exists w. split; [now left|]. unfold Spec.feed_update in Hw.
    destruct (quantity_normalizer (kolichestvo w)); [|discriminate].
    simpl in Hw. injection Hw as <-. split; reflexivity.
  - destruct (IH Hin) as (w' & H1 & H2). exists w'. split; [now right | exact H2].
Qed.

Lemma reconcile_skus (F : list watch) (C : list string)
      (us : list Spec.StockUpdate) :
  Spec.reconcile F C = Ok us -> Permutation (map fst us) C.
Proof.
  unfold Spec.reconcile.
  destruct (traverse Spec.feed_update _) as [l|] eqn:E; simpl; [|discriminate].
  intros [= <-]. apply traverse_Forall2 in E.
  pose proof (feed_updates_skus E) as Hs. unfold Spec.StockUpdate in *.
  rewrite map_app, map_map, Hs. simpl. rewrite map_id.
  apply claimed_unclaimed_perm.
Qed.

Lemma reconcile_counts (F : list watch) (C : list string)
      (us : list Spec.StockUpdate) :
  NoDup C -> Spec.reconcile F C = Ok us ->
  forall (sku : string) (count : Z),
    In (sku, count) us ->
    (exists F1 w F2,
        F = F1 ++ w :: F2 /\ kod w = sku /\
        (forall w', In w' F1 -> kod w' <> sku) /\
        quantity_normalizer (kolichestvo w) = Ok count) \/
    ((forall w, In w F -> kod w <> sku) /\ count = 0).
Proof.
  intros HC. unfold Spec.reconcile.
  destruct (traverse Spec.feed_update _) as [l|] eqn:E; simpl; [|discriminate].
  intros [= <-] sku count Hin. apply traverse_Forall2 in E.
  apply in_app_or in Hin. destruct Hin as [Hin|Hin].
  - left. destruct (@feed_updates_In _ _ (sku, count) E Hin) as (w & Hw & Hk & Hq).
    simpl in Hk, Hq.
    destruct (claimed_first _ _ HC Hw) as (_ & F1 & F2 & -> & Hf).
    exists F1, w, F2. rewrite <- Hk. repeat split; assumption.
  - right. apply in_map_iff in Hin. destruct Hin as (s & [= <- <-] & Hs).
    split; [|reflexivity].
    rewrite (unclaimed_NoDup F HC) in Hs. apply filter_In in Hs.
    destruct Hs as (_ & Hs). apply negb_true_iff in Hs.
    intros w Hw Hk.
    assert (Spec.in_feed F s = true) by (apply in_feed_In; eauto).
    congruence.
Qed.

Lemma traverse_ok_Forall {A B} (f : A -> result B) (l : list A)
      (bs : list B) :
  traverse f l = Ok bs -> Forall (fun a => is_ok (f a) = true) l.
Proof.
  intros H. apply traverse_Forall2 in H.
  induction H as [|a b l bs Ha _ IH]; constructor; [|exact IH].
  now rewrite Ha.
Qed.

Lemma feed_update_is_ok (w : watch) :
  is_ok (Spec.feed_update w) = is_ok (quantity_normalizer (kolichestvo w)).
Proof.
  unfold Spec.feed_update.
  destruct (quantity_normalizer (kolichestvo w)); reflexivity.
Qed.

Lemma reconcile_returns (F : list watch) (C : list string) :
  Forall (fun w => is_ok (quantity_normalizer (kolichestvo w)) = true)
         (Spec.claimed F C) ->
  exists us, Spec.reconcile F C = Ok us.
Proof.
  intros H. unfold Spec.reconcile.
  destruct (traverse_total Spec.feed_update (l := Spec.claimed F C))
    as (l & ->); [|simpl; eauto].
  eapply Forall_impl; [|exact H]. intros w Hw. now rewrite feed_update_is_ok.
Qed.

Lemma reconcile_raises (F : list watch) (C : list string) :
  ~ Forall (fun w => is_ok (quantity_normalizer (kolichestvo w)) = true)
           (Spec.claimed F C) ->
  Spec.reconcile F C = Error InvalidQuantity.
Proof.
  intros H. unfold Spec.reconcile.
  destruct (traverse Spec.feed_update (Spec.claimed F C)) as [l|e] eqn:T.
  - exfalso. apply H. apply traverse_ok_Forall in T.
    eapply Forall_impl; [|exact T]. intros w Hw.
    now rewrite <- feed_update_is_ok.
  - simpl. f_equal. destruct (traverse_error _ _ T) as (w & _ & Hw).
    unfold Spec.feed_update in Hw.
    destruct (quantity_normalizer (kolichestvo w)) as [q|e'] eqn:Q;
      simpl in Hw; [discriminate|].
    injection Hw as <-. exact (quantity_normalizer_error _ Q).
Qed.

Lemma remove_In_other (x y : string) (l : list string) :
  x <> y -> In y l -> In y (Py.remove x l).
Proof.
  intros Hxy. induction l as [|z l IH]; intros Hin; [destruct Hin|]. simpl.
  destruct (String.eqb_spec x z) as [->|Hxz].
  - destruct Hin as [->|Hin]; [congruence | exact Hin].
  - destruct Hin as [->|Hin]; [now left | right; now apply IH].
Qed.

Lemma claimed_of_first (F1 : list watch) :
  forall (C : list string) (w : watch) (F2 : list watch),
    In (kod w) C ->
    (forall w', In w' F1 -> kod w' <> kod w) ->
    In w (Spec.claimed (F1 ++ w :: F2) C).
Proof.
  induction F1 as [|x F1 IH]; intros C w F2 HC Hf; simpl.
  - rewrite (proj2 (contains_In (kod w) C) HC). now left.
  - assert (Hx : kod x <> kod w) by (apply Hf; now left).
    assert (Hf' : forall w', In w' F1 -> kod w' <> kod w)
      by (intros w' Hw'; apply Hf; now right).
    destruct (Py.contains (kod x) C).
    + right. apply IH; [|exact Hf']. now apply remove_In_other.
    + now apply IH.
Qed.

(** C1, as amended.  [create_stocks] matches a feed record when its sku is
    still in the working list as the record is reached; with a duplicate-free
    catalog these are the first feed records carrying each listed sku (later
    records with that sku are skipped, their labels never read).  If the
    label of every matched record normalizes, both [create_stocks] return,
    and they return the same updates (sku and count) dressed for each
    marketplace: exactly [|C|] of them, whose skus are a rearrangement of
    [C], so that no sku of [C] is omitted; when [C] has no duplicate the
    updates have none either, and each one either carries the normalized
    quantity of the first feed record with its sku, or has count 0 and a sku
    that no feed record carries.  Otherwise both raise the [ValueError] of
    [int] and emit nothing. *)
Theorem create_stocks_one_update_per_sku
    (F : list watch) (C : list string) (warehouse_id date : string) :
  (Forall (fun w => is_ok (quantity_normalizer (kolichestvo w)) = true)
          (Spec.claimed F C) ->
   exists updates : list Spec.StockUpdate,
     fst (Seller.create_stocks F C) = Ok (map Spec.seller_stock updates) /\
     fst (Market.create_stocks F C warehouse_id date) =
       Ok (map (Spec.market_stock warehouse_id date) updates) /\
     List.length updates = List.length C /\
     Permutation (map fst updates) C /\
     (NoDup C ->
      NoDup (map fst updates) /\
      forall (sku : string) (count : Z),
        In (sku, count) updates ->
        (exists F1 w F2,
            F = F1 ++ w :: F2 /\ kod w = sku /\
            (forall w', In w' F1 -> kod w' <> sku) /\
            quantity_normalizer (kolichestvo w) = Ok count) \/
        ((forall w, In w F -> kod w <> sku) /\ count = 0))) /\
  (~ Forall (fun w => is_ok (quantity_normalizer (kolichestvo w)) = true)
            (Spec.claimed F C) ->
   fst (Seller.create_stocks F C) = Error InvalidQuantity /\
   fst (Market.create_stocks F C warehouse_id date) = Error InvalidQuantity) /\
  (NoDup C ->
   forall w : watch,
     In w (Spec.claimed F C) <->
     exists F1 F2,
       F = F1 ++ w :: F2 /\ In (kod w) C /\
       forall w', In w' F1 -> kod w' <> kod w).
Proof.
  split; [|split].
  - intros H. destruct (@reconcile_returns F C H) as (us & Hus).
    exists us.
    rewrite (@seller_create_stocks_ok F C us Hus).
    rewrite (@market_create_stocks_ok F C warehouse_id date us Hus).
    pose proof (@reconcile_skus F C us Hus) as P.
    split; [reflexivity|]. split; [reflexivity|]. split; [|split].
    + rewrite <- (Permutation_length P). now rewrite length_map.
    + exact P.
    + intros HC. split.
      * apply (Permutation_NoDup (Permutation_sym P)). assumption.
      * exact (@reconcile_counts F C us HC Hus).
  - intros H. pose proof (@reconcile_raises F C H) as E. split.
    + exact (@seller_create_stocks_error F C _ E).
    + exact (@market_create_stocks_error F C warehouse_id date _ E).
  - intros HC w. split.
    + intros Hw. destruct (claimed_first _ _ HC Hw) as (Hin & F1 & F2 & E & Hf).
      exists F1, F2. auto.
    + intros (F1 & F2 & -> & Hin & Hf). now apply claimed_of_first.
Qed.

Lemma create_stocks_one_update_per_sku_witness :
  (exists updates : list Spec.StockUpdate,
      fst (Seller.create_stocks [Watch "A" "5" "100.00"; Watch "A" "abc" "1"]
                                ["A"; "B"; "C"]) =
        Ok (map Spec.seller_stock updates) /\
      List.length updates = 3%nat) /\
  fst (Seller.create_stocks [Watch "A" "abc" "100.00"] ["A"]) =
    Error InvalidQuantity.
Proof.
  split.
  - destruct (proj1 (create_stocks_one_update_per_sku
                       [Watch "A" "5" "100.00"; Watch "A" "abc" "1"]
                       ["A"; "B"; "C"] "wh" "2022-12-29T18:02:01Z"))
      as (us & Hs & _ & Hlen & _).
    + simpl. constructor; [reflexivity | constructor].
    + exists us. split; assumption.
  - apply (proj1 (proj2 (create_stocks_one_update_per_sku
                           [Watch "A" "abc" "100.00"] ["A"] "wh" "t"))).
    simpl. intros H. inversion H as [|? ? Hbad _]. discriminate.
Defined.

(** A second feed record with the sku of an earlier one is skipped: its
    label, here one that does not normalize, is never read. *)
Example later_record_of_a_sku_is_skipped :
  Seller.create_stocks [Watch "A" "5" "100.00"; Watch "A" "abc" "100.00"]
                       ["A"] =
  (Ok [Seller.StockItem "A" 5], []).
Proof. reflexivity. Qed.

(** C1, the claim as stated fails.  A listed sku whose feed record carries
    the label "abc" makes both [create_stocks] raise, so no update is
    emitted for a catalog of one sku; and a catalog that lists a sku twice
    gets two updates for that sku. *)
Lemma create_stocks_counterexample :
  fst (Seller.create_stocks [Watch "A" "abc" "100.00"] ["A"]) =
    Error InvalidQuantity /\
  fst (Market.create_stocks [Watch "A" "abc" "100.00"] ["A"]
                            "wh" "2022-12-29T18:02:01Z") =
    Error InvalidQuantity /\
  fst (Seller.create_stocks [Watch "A" "5" "100.00"] ["A"; "A"]) =
    Ok [Seller.StockItem "A" 5; Seller.StockItem "A" 0].
Proof. repeat split; reflexivity. Qed.

(** The scenario of the spec: catalog A, B, C and a feed with A alone. *)
Example scenario_stocks :
  Seller.create_stocks [Watch "A" "5" "100.00"] ["A"; "B"; "C"] =
  (Ok [Seller.StockItem "A" 5; Seller.StockItem "B" 0; Seller.StockItem "C" 0],
   ["B"; "C"]).
Proof. reflexivity. Qed.

Example scenario_prices :
  Market.create_prices [Watch "A" "5" "100.00"] ["A"; "B"; "C"] =
  Ok [Market.PriceItem "A" (Market.PriceBody 100 "RUR")].
Proof. reflexivity. Qed.

Lemma market_loop_left_behind (F : list watch) (warehouse_id d1 d2 : string) :
  forall (C : list string) (acc1 acc2 : list Market.stock_item),
    snd (Market.create_stocks_loop F C warehouse_id d1 acc1) =
    snd (Market.create_stocks_loop F C warehouse_id d2 acc2).
Proof.
  induction F as [|w F IH]; intros C acc1 acc2; simpl; [reflexivity|].
  destruct (Py.contains (kod w) C); [|apply IH].
  destruct (quantity_normalizer (kolichestvo w)); [apply IH | reflexivity].
Qed.

Lemma market_create_stocks_left_behind
      (F : list watch) (C : list string) (warehouse_id d1 d2 : string) :
  snd (Market.create_stocks F C warehouse_id d1) =
  snd (Market.create_stocks F C warehouse_id d2).
Proof.
  unfold Market.create_stocks.
  pose proof (market_loop_left_behind F warehouse_id d1 d2 C [] []) as H.
  destruct (Market.create_stocks_loop F C warehouse_id d1 []) as [[s1|e1] r1];
    destruct (Market.create_stocks_loop F C warehouse_id d2 []) as [[s2|e2] r2];
    exact H.
Qed.

(** C9, as amended.  Two runs over the same feed and catalog, the clock read
    as [date1] in one and as [date2] in the other: market.py's
    [create_stocks] leaves the same list behind in both, and either fails in
    both with the same exception, or returns in both the same updates, equal
    in sku, warehouse, count and type, each stamped with its own run's clock
    reading.  seller.py's [create_stocks], which reads no clock, returns
    these very updates. *)
Theorem reconciliation_repeatable
    (F : list watch) (C : list string) (warehouse_id date1 date2 : string) :
  snd (Market.create_stocks F C warehouse_id date1) =
  snd (Market.create_stocks F C warehouse_id date2) /\
  match fst (Market.create_stocks F C warehouse_id date1),
        fst (Market.create_stocks F C warehouse_id date2) with
  | Ok stocks1, Ok stocks2 =>
      exists updates : list Spec.StockUpdate,
        stocks1 = map (Spec.market_stock warehouse_id date1) updates /\
        stocks2 = map (Spec.market_stock warehouse_id date2) updates /\
        fst (Seller.create_stocks F C) = Ok (map Spec.seller_stock updates)
  | Error e1, Error e2 =>
      e1 = e2 /\ fst (Seller.create_stocks F C) = Error e1
  | _, _ => False
  end.
Proof.
  destruct (Spec.reconcile F C) as [us|e] eqn:E.
  - rewrite !(@market_create_stocks_ok F C warehouse_id _ us E).
    rewrite (@seller_create_stocks_ok F C us E). simpl.
    split; [reflexivity|]. exists us. repeat split.
  - rewrite !(@market_create_stocks_error F C warehouse_id _ e E).
    rewrite (@seller_create_stocks_error F C e E).
    split; [apply market_create_stocks_left_behind | split; reflexivity].
Qed.

(** C9, the claim as stated fails for market.py: the same feed and catalog,
    reconciled at two different seconds, give updates that differ in
    [updatedAt]. *)
Lemma reconciliation_clock_counterexample :
  Market.create_stocks [] ["A"] "wh" "2022-12-29T18:02:01Z" <>
  Market.create_stocks [] ["A"] "wh" "2022-12-29T18:02:02Z".
Proof. discriminate. Qed.

(** ** The list [create_stocks] leaves behind *)

Lemma filter_none {A} (f : A -> bool) (l : list A) :
  (forall a, In a l -> f a = false) -> filter f l = [].
Proof.
  induction l as [|a l IH]; intros H; [reflexivity|]. simpl.
  rewrite (H a (or_introl eq_refl)). apply IH.
  intros b Hb. apply H. now right.
Qed.

Lemma unclaimed_prices_empty (F : list watch) (C : list string) :
  NoDup C -> Seller.create_prices F (Spec.unclaimed F C) = [].
Proof.
  intros HC. rewrite seller_create_prices_map, filter_none; [reflexivity|].
  intros w' Hw'. unfold Spec.matched. apply contains_false.
  rewrite (unclaimed_NoDup F HC), filter_In. intros (_ & Hn).
  apply negb_true_iff in Hn.
  assert (Spec.in_feed F (kod w') = true) by (apply in_feed_In; eauto).
  congruence.
Qed.

Lemma seller_loop_removes (F : list watch) :
  forall (C : list string) (acc : list Seller.stock_item),
  exists done : list watch,
    Permutation (map kod done ++ snd (Seller.create_stocks_loop F C acc)) C /\
    Forall (fun w => In w F) done.
Proof.
  induction F as [|w F IH]; intros C acc; simpl.
  - exists []. split; [reflexivity | constructor].
  - destruct (Py.contains (kod w) C) eqn:E.
    + destruct (quantity_normalizer (kolichestvo w)) as [q|e].
      * destruct (IH (Py.remove (kod w) C)
                     (acc ++ [Seller.StockItem (kod w) q]))
          as (done & P & Hd).
        exists (w :: done). split.
        -- simpl. rewrite P. apply remove_perm. now apply contains_In.
        -- constructor; [now left|].
           eapply Forall_impl; [|exact Hd]. intros a Ha. now right.
      * exists []. split; [reflexivity | constructor].
    + destruct (IH C acc) as (done & P & Hd).
      exists done. split; [exact P|].
      eapply Forall_impl; [|exact Hd]. intros a Ha. now right.
Qed.

Lemma seller_create_stocks_left_behind (F : list watch) (C : list string) :
  snd (Seller.create_stocks F C) = snd (Seller.create_stocks_loop F C []).
Proof.
  unfold Seller.create_stocks.
  destruct (Seller.create_stocks_loop F C []) as [[stocks|e] rest]; reflexivity.
Qed.

Lemma seller_main_after_enumeration
      (w : Seller.env) (pages : nat) (tr : list Seller.event)
      (F : list watch) (C : list string) :
  Seller.get_offer_ids (Seller.get_product_list w) pages = Some (Ok C) ->
  Seller.download_stock w = Ok F ->
  Seller.main w pages tr =
  try_except
    (stocks <~ lift (fst (Seller.create_stocks F C)) ;;
     chunks <~ lift (divide stocks 100) ;;
     for_each (Seller.update_stocks w) 0 chunks ;;;
     chunks <~ lift (divide (Seller.create_prices
                               F (snd (Seller.create_stocks F C))) 900) ;;
     for_each (Seller.update_price w) 0 chunks)
    Seller.report tr.
Proof.
  intros HC HF. unfold Seller.main, try_except, pbind, lift_paging, lift.
  rewrite HC, HF. destruct (Seller.create_stocks F C) as [created rest].
  reflexivity.
Qed.

Lemma seller_loop_raises (F : list watch) :
  forall (C : list string) (acc : list Seller.stock_item) (e : exn),
    fst (Seller.create_stocks_loop F C acc) = Error e ->
    exists (F1 : list watch) (w : watch) (F2 : list watch)
           (stocks1 : list Seller.stock_item),
      F = F1 ++ w :: F2 /\
      Seller.create_stocks_loop F1 C acc =
        (Ok stocks1, snd (Seller.create_stocks_loop F C acc)) /\
      Py.contains (kod w) (snd (Seller.create_stocks_loop F C acc)) = true /\
      quantity_normalizer (kolichestvo w) = Error e.
Proof.
  induction F as [|x F IH]; intros C acc e H; [discriminate|].
  cbn [Seller.create_stocks_loop] in *.
  destruct (Py.contains (kod x) C) eqn:E.
  - destruct (quantity_normalizer (kolichestvo x)) as [q|e'] eqn:Q.
    + destruct (IH _ _ _ H) as (F1 & w & F2 & s1 & -> & Hl & Hc & Hq).
      exists (x :: F1), w, F2, s1. split; [reflexivity|].
      cbn [Seller.create_stocks_loop]. rewrite E, Q. auto.
    + simpl in H. injection H as ->.
      exists [], x, F, acc. simpl. auto.
  - destruct (IH _ _ _ H) as (F1 & w & F2 & s1 & -> & Hl & Hc & Hq).
    exists (x :: F1), w, F2, s1. split; [reflexivity|].
    cbn [Seller.create_stocks_loop]. rewrite E. auto.
Qed.

Lemma seller_market_loop_left_behind
      (F : list watch) (warehouse_id date : string) :
  forall (C : list string) (acc : list Seller.stock_item)
         (acc' : list Market.stock_item),
    snd (Market.create_stocks_loop F C warehouse_id date acc') =
    snd (Seller.create_stocks_loop F C acc).
Proof.
  induction F as [|w F IH]; intros C acc acc'; simpl; [reflexivity|].
  destruct (Py.contains (kod w) C); [|apply IH].
  destruct (quantity_normalizer (kolichestvo w)); [apply IH | reflexivity].
Qed.

Lemma seller_market_left_behind
      (F : list watch) (C : list string) (warehouse_id date : string) :
  snd (Market.create_stocks F C warehouse_id date) =
  snd (Seller.create_stocks F C).
Proof.
  rewrite seller_create_stocks_left_behind.
  rewrite <- (seller_market_loop_left_behind F warehouse_id date C [] []).
  unfold Market.create_stocks.
  destruct (Market.create_stocks_loop F C warehouse_id date [])
    as [[stocks|e] rest]; reflexivity.
Qed.

(** C10, as amended.  [create_stocks] changes the caller's list
    [offer_ids].  A call that returns has removed the skus of its
    feed-derived updates, one occurrence each, and what is left, [rest], is
    exactly the list of skus it decommissions (for a catalog without
    duplicates: the catalog skus no feed record carries); market.py's
    function leaves the same list; [main] of seller.py then calls
    [create_prices] on [rest], not on the catalog, and with a duplicate-free
    catalog this call finds no price at all.  A call that raises, at a
    matched record [w] whose label does not normalize, leaves the list as a
    call on the records before [w] leaves it (and that call returns): the sku
    of [w] is still in it. *)
Theorem create_stocks_mutates_offer_ids (F : list watch) (C : list string) :
  (forall stocks : list Seller.stock_item,
    fst (Seller.create_stocks F C) = Ok stocks ->
    exists (feed_part : list Seller.stock_item) (rest : list string),
      snd (Seller.create_stocks F C) = rest /\
      (forall warehouse_id date : string,
          snd (Market.create_stocks F C warehouse_id date) = rest) /\
      stocks = feed_part ++ map (fun sku => Seller.StockItem sku 0) rest /\
      Permutation (map Seller.offer_id feed_part ++ rest) C /\
      (forall item, In item feed_part ->
                    exists w', In w' F /\ kod w' = Seller.offer_id item) /\
      (NoDup C ->
       rest = filter (fun sku => negb (Spec.in_feed F sku)) C /\
       Seller.create_prices F rest = []) /\
      (forall (w : Seller.env) (pages : nat) (tr : list Seller.event),
          Seller.get_offer_ids (Seller.get_product_list w) pages = Some (Ok C) ->
          Seller.download_stock w = Ok F ->
          Seller.main w pages tr =
          try_except
            (chunks <~ lift (divide stocks 100) ;;
             for_each (Seller.update_stocks w) 0 chunks ;;;
             chunks <~ lift (divide (Seller.create_prices F rest) 900) ;;
             for_each (Seller.update_price w) 0 chunks)
            Seller.report tr)) /\
  forall e : exn,
    fst (Seller.create_stocks F C) = Error e ->
    exists (F1 : list watch) (w : watch) (F2 : list watch)
           (stocks1 : list Seller.stock_item),
      F = F1 ++ w :: F2 /\
      Seller.create_stocks F1 C =
        (Ok stocks1, snd (Seller.create_stocks F C)) /\
      In (kod w) (snd (Seller.create_stocks F C)) /\
      quantity_normalizer (kolichestvo w) = Error e /\
      forall warehouse_id date : string,
        snd (Market.create_stocks F C warehouse_id date) =
        snd (Seller.create_stocks F C).
Proof.
  split.
  {
  intros stocks Hs.
  destruct (Spec.reconcile F C) as [us|e] eqn:E.
  2:{ rewrite (@seller_create_stocks_error F C e E) in Hs. discriminate. }
  pose proof (@seller_create_stocks_ok F C us E) as Hok.
  rewrite Hok in Hs. simpl in Hs. injection Hs as <-.
  unfold Spec.reconcile in E.
  destruct (traverse Spec.feed_update (Spec.claimed F C)) as [l|] eqn:T;
    simpl in E; [|discriminate].
  injection E as <-. apply traverse_Forall2 in T.
  exists (map Spec.seller_stock l), (Spec.unclaimed F C).
  split; [now rewrite Hok|]. split.
  { intros warehouse_id date.
    erewrite market_create_stocks_ok; [reflexivity|].
    unfold Spec.reconcile. apply traverse_total_Forall2 in T.
    rewrite T. reflexivity. }
  split; [now rewrite map_app, map_map|]. split.
  { rewrite map_map. simpl.
    pose proof (feed_updates_skus T) as Hk. unfold Spec.StockUpdate in *.
    change (fun x : string * Z => fst x) with (@fst string Z).
    rewrite Hk. apply claimed_unclaimed_perm. }
  split.
  { intros item Hitem. apply in_map_iff in Hitem.
    destruct Hitem as (u & <- & Hu).
    destruct (@feed_updates_In _ _ u T Hu) as (w' & Hw' & Hk & _).
    exists w'. split; [|exact Hk].
    now destruct (claimed_incl _ _ _ Hw'). }
  split.
  { intros HC. split; [now apply unclaimed_NoDup|].
    now apply unclaimed_prices_empty. }
  intros w pages tr HC HF.
  rewrite (@seller_main_after_enumeration w pages tr F C HC HF), Hok.
  reflexivity. }
  intros e He.
  assert (Hl : fst (Seller.create_stocks_loop F C []) = Error e).
  { unfold Seller.create_stocks in He.
    destruct (Seller.create_stocks_loop F C []) as [[stocks|e'] rest];
      [discriminate | exact He]. }
  destruct (seller_loop_raises F C [] Hl)
    as (F1 & w & F2 & s1 & HF & Hloop & Hc & Hq).
  rewrite <- seller_create_stocks_left_behind in Hloop, Hc.
  exists F1, w, F2,
    (s1 ++ map (fun sku => Seller.StockItem sku 0)
               (snd (Seller.create_stocks F C))).
  split; [exact HF|]. split.
  { unfold Seller.create_stocks at 1. now rewrite Hloop. }
  split; [now apply contains_In|]. split; [exact Hq|].
  intros warehouse_id date. apply seller_market_left_behind.
Qed.

Lemma create_stocks_mutates_offer_ids_witness :
  exists (feed_part : list Seller.stock_item) (rest : list string),
    snd (Seller.create_stocks Scenario.feed ["A"; "B"; "C"]) = rest /\
    Seller.create_prices Scenario.feed rest = [].
Proof.
  destruct (proj1 (create_stocks_mutates_offer_ids
                     Scenario.feed ["A"; "B"; "C"])
                  [Seller.StockItem "A" 5; Seller.StockItem "B" 0;
                   Seller.StockItem "C" 0] eq_refl)
    as (feed_part & rest & Hrest & _ & _ & _ & _ & Hnd & _).
  exists feed_part, rest. split; [exact Hrest|].
  apply Hnd. repeat constructor; simpl; intuition discriminate.
Defined.

(** C10, the claim as stated fails.  A call that raises at the record of
    "B" leaves "B" and "C" in the list, both carried by feed records; and
    with a catalog that lists "A" twice a returning call leaves one "A",
    matched though it was, for which a later [create_prices] on the same list
    makes a price. *)
Lemma create_stocks_leftover_counterexample :
  Seller.create_stocks
    [Watch "A" "5" "100.00"; Watch "B" "abc" "100.00"; Watch "C" "3" "100.00"]
    ["A"; "B"; "C"] = (Error ValueError, ["B"; "C"]) /\
  Seller.create_stocks [Watch "A" "5" "100.00"] ["A"; "A"] =
    (Ok [Seller.StockItem "A" 5; Seller.StockItem "A" 0], ["A"]) /\
  Seller.create_prices [Watch "A" "5" "100.00"] ["A"] =
    [Seller.PriceItem "UNKNOWN" "RUB" "A" "0" "100"].
Proof. repeat split; reflexivity. Qed.

(** ** Catalog enumeration *)

Lemma market_loop_steps (srv : Market.listing) : forall (k pages : nat),
  (forall i, (i < k)%nat -> Paging.market_goes_on srv i = true) ->
  Market.get_offer_ids_loop srv (k + pages) 0 "" [] =
  Market.get_offer_ids_loop srv pages k
    (fst (Paging.market_before srv k)) (snd (Paging.market_before srv k)).
Proof.
  induction k as [|k IH]; intros pages H; [reflexivity|].
  replace (S k + pages)%nat with (k + S pages)%nat by lia.
  rewrite IH by (intros i Hi; apply H; lia).
  specialize (H k (Nat.lt_succ_diag_r k)).
  unfold Paging.market_goes_on, Paging.market_answer in H.
  cbn [Paging.market_before].
  destruct (Paging.market_before srv k) as [page collected].
  cbn [fst snd] in *. cbn [Market.get_offer_ids_loop].
  destruct (srv k page) as [p|e]; [|discriminate].
  apply negb_true_iff in H. rewrite H. reflexivity.
Qed.

Lemma seller_loop_steps (srv : Seller.listing) : forall (k pages : nat),
  (forall i, (i < k)%nat -> Paging.seller_goes_on srv i = true) ->
  Seller.get_offer_ids_loop srv (k + pages) 0 "" [] =
  Seller.get_offer_ids_loop srv pages k
    (fst (Paging.seller_before srv k)) (snd (Paging.seller_before srv k)).
Proof.
  induction k as [|k IH]; intros pages H; [reflexivity|].
  replace (S k + pages)%nat with (k + S pages)%nat by lia.
  rewrite IH by (intros i Hi; apply H; lia).
  specialize (H k (Nat.lt_succ_diag_r k)).
  unfold Paging.seller_goes_on, Paging.seller_answer in H.
  cbn [Paging.seller_before].
  destruct (Paging.seller_before srv k) as [last_id collected].
  cbn [fst snd] in *. cbn [Seller.get_offer_ids_loop].
  destruct (srv k last_id) as [p|e]; [|discriminate].
  apply negb_true_iff in H. cbv zeta. rewrite H. reflexivity.
Qed.

Lemma market_enumeration (srv : Market.listing) (k : nat) :
  (forall i, (i < k)%nat -> Paging.market_goes_on srv i = true) ->
  (forall pages, (pages <= k)%nat -> Market.get_offer_ids srv pages = None) /\
  (Paging.market_goes_on srv k = false ->
   forall pages, (k < pages)%nat ->
     Market.get_offer_ids srv pages = Some (Paging.market_outcome srv k)).
Proof.
  intros H. split.
  - intros pages Hp. unfold Market.get_offer_ids.
    replace pages with (pages + 0)%nat by lia.
    rewrite market_loop_steps by (intros i Hi; apply H; lia). reflexivity.
  - intros Hstop pages Hp. unfold Market.get_offer_ids.
    replace pages with (k + S (pages - S k))%nat by lia.
    rewrite (market_loop_steps srv (S (pages - S k)) H).
    unfold Paging.market_goes_on, Paging.market_outcome,
      Paging.market_answer in *.
    destruct (Paging.market_before srv k) as [page collected].
    cbn [fst snd] in *. cbn [Market.get_offer_ids_loop].
    destruct (srv k page) as [p|e]; [|reflexivity].
    apply negb_false_iff in Hstop. rewrite Hstop. reflexivity.
Qed.

Lemma seller_enumeration (srv : Seller.listing) (k : nat) :
  (forall i, (i < k)%nat -> Paging.seller_goes_on srv i = true) ->
  (forall pages, (pages <= k)%nat -> Seller.get_offer_ids srv pages = None) /\
  (Paging.seller_goes_on srv k = false ->
   forall pages, (k < pages)%nat ->
     Seller.get_offer_ids srv pages = Some (Paging.seller_outcome srv k)).
Proof.
  intros H. split.
  - intros pages Hp. unfold Seller.get_offer_ids.
    replace pages with (pages + 0)%nat by lia.
    rewrite seller_loop_steps by (intros i Hi; apply H; lia). reflexivity.
  - intros Hstop pages Hp. unfold Seller.get_offer_ids.
    replace pages with (k + S (pages - S k))%nat by lia.
    rewrite (seller_loop_steps srv (S (pages - S k)) H).
    unfold Paging.seller_goes_on, Paging.seller_outcome,
      Paging.seller_answer in *.
    destruct (Paging.seller_before srv k) as [last_id collected].
    cbn [fst snd] in *. cbn [Seller.get_offer_ids_loop].
    destruct (srv k last_id) as [p|e]; [|reflexivity].
    apply negb_false_iff in Hstop. cbv zeta. rewrite Hstop. reflexivity.
Qed.

(** C2, as amended.  Neither [get_offer_ids] bounds the number of pages or
    notices a repeated cursor.  The loop leaves at the first answer that is a
    failure, which it passes on, or that meets its stop test (market.py: the
    next-page token is absent or empty; seller.py: the reported total equals
    the number of entries collected), and then returns the skus of all pages
    fetched, in order.  As long as the answers make it go on it keeps
    requesting: if the first [k] answers do, it is still running after [k]
    requests, whatever [k]. *)
Theorem get_offer_ids_runs_until_stop :
  (forall (srv : Market.listing) (k : nat),
      (forall i, (i < k)%nat -> Paging.market_goes_on srv i = true) ->
      (forall pages, (pages <= k)%nat ->
                     Market.get_offer_ids srv pages = None) /\
      (Paging.market_goes_on srv k = false ->
       forall pages, (k < pages)%nat ->
         Market.get_offer_ids srv pages =
         Some (Paging.market_outcome srv k))) /\
  (forall (srv : Seller.listing) (k : nat),
      (forall i, (i < k)%nat -> Paging.seller_goes_on srv i = true) ->
      (forall pages, (pages <= k)%nat ->
                     Seller.get_offer_ids srv pages = None) /\
      (Paging.seller_goes_on srv k = false ->
       forall pages, (k < pages)%nat ->
         Seller.get_offer_ids srv pages =
         Some (Paging.seller_outcome srv k))).
Proof.
  split; [exact market_enumeration | exact seller_enumeration].
Qed.

Lemma get_offer_ids_runs_until_stop_witness :
  Market.get_offer_ids Scenario.market_two_pages 5 = Some (Ok ["A"; "B"]) /\
  Seller.get_offer_ids Scenario.seller_two_pages 5 = Some (Ok ["A"; "B"]) /\
  Market.get_offer_ids Scenario.market_two_pages 1 = None.
Proof.
  destruct get_offer_ids_runs_until_stop as (Hm & Hs).
  assert (G : forall i, (i < 1)%nat ->
                        Paging.market_goes_on Scenario.market_two_pages i = true).
  { intros i Hi. replace i with 0%nat by lia. reflexivity. }
  assert (G' : forall i, (i < 1)%nat ->
                         Paging.seller_goes_on Scenario.seller_two_pages i = true).
  { intros i Hi. replace i with 0%nat by lia. reflexivity. }
  destruct (Hm Scenario.market_two_pages 1%nat G) as (Hrun & Hstop).
  destruct (Hs Scenario.seller_two_pages 1%nat G') as (_ & Hstop').
  split; [|split].
  - apply (Hstop eq_refl 5%nat). lia.
  - apply (Hstop' eq_refl 5%nat). lia.
  - apply (Hrun 1%nat). lia.
Defined.

Lemma market_stuck_runs (pages : nat) :
  forall (calls : nat) (page : string) (acc : list Market.mapping_entry),
    Market.get_offer_ids_loop Scenario.market_stuck pages calls page acc = None.
Proof.
  induction pages as [|pages IH]; intros calls page acc; [reflexivity|].
  simpl. apply IH.
Qed.

Lemma seller_stuck_runs (pages : nat) :
  forall (calls : nat) (last_id : string),
    Seller.get_offer_ids_loop Scenario.seller_stuck pages calls last_id [] = None.
Proof.
  induction pages as [|pages IH]; intros calls last_id; [reflexivity|].
  simpl. apply IH.
Qed.

(** C2, the claim as stated fails.  Against a listing that always answers
    with the same non-empty token, and against one whose reported total is
    never reached, [get_offer_ids] returns after no number of pages: it
    neither stops nor fails. *)
Lemma get_offer_ids_unbounded_counterexample :
  ~ (exists pages r,
        Market.get_offer_ids Scenario.market_stuck pages = Some r) /\
  ~ (exists pages r,
        Seller.get_offer_ids Scenario.seller_stuck pages = Some r).
Proof.
  split; intros (pages & r & H).
  - unfold Market.get_offer_ids in H.
    rewrite market_stuck_runs in H. discriminate.
  - unfold Seller.get_offer_ids in H.
    rewrite seller_stuck_runs in H. discriminate.
Qed.

(** ** The orchestrators *)

Lemma market_for_each_trace (w : Market.env) (campaign_id : string) :
  forall (chunks : list (list Market.stock_item)) (k : nat)
         (tr : list Market.event),
  exists (r : result unit) (sent : list (list Market.stock_item)),
    for_each (Market.update_stocks w campaign_id) k chunks tr =
    Some (r, tr ++ map (Market.StocksSent campaign_id) sent).
Proof.
  induction chunks as [|c chunks IH]; intros k tr.
  - exists (Ok tt), []. simpl. now rewrite app_nil_r.
  - cbn [for_each]. unfold pbind at 1.
    unfold Market.update_stocks at 1, pbind, emit, lift.
    destruct (Market.update_stocks_answer w campaign_id k c) as [[]|e].
    + destruct (IH (S k) (tr ++ [Market.StocksSent campaign_id c]))
        as (r & sent & ->).
      exists r, (c :: sent). now rewrite <- app_assoc.
    + exists (Error e), [c]. reflexivity.
Qed.

Lemma market_stock_pass_trace (w : Market.env) (pages : nat) (F : list watch)
      (campaign_id warehouse_id : string) (clock : nat)
      (tr : list Market.event) :
  Market.stock_pass w pages F campaign_id warehouse_id clock tr = None \/
  exists (r : result unit) (sent : list (list Market.stock_item)),
    Market.stock_pass w pages F campaign_id warehouse_id clock tr =
    Some (r, tr ++ Market.Enumerating campaign_id ::
                   map (Market.StocksSent campaign_id) sent).
Proof.
  unfold Market.stock_pass, Market.enumerate, pbind, emit, lift_paging, lift.
  destruct (Market.get_offer_ids _ pages) as [[offer_ids|e]|]; [| |now left];
    right.
  - destruct (fst (Market.create_stocks F offer_ids warehouse_id _))
      as [stocks|e].
    + destruct (divide stocks 2000) as [chunks|e].
      * destruct (market_for_each_trace w campaign_id chunks 0
                    (tr ++ [Market.Enumerating campaign_id]))
          as (r & sent & ->).
        exists r, sent. now rewrite <- app_assoc.
      * exists (Error e), []. reflexivity.
    + exists (Error e), []. reflexivity.
  - exists (Error e), []. reflexivity.
Qed.

(** C3, as amended.  In [main] of market.py the FBS and the DBS pass stand
    in one [try] block.  A failure raised during the FBS pass is caught and
    printed by [main], which then returns: what the run has done is the FBS
    enumeration, the FBS chunks sent before the failure, and the print; the
    DBS pass is not started.  The DBS pass runs only once the FBS pass has
    completed, and its own failure is caught and printed in turn. *)
Theorem market_main_passes_share_one_try
    (w : Market.env) (pages : nat) (tr : list Market.event) (F : list watch) :
  Market.download_stock w = Ok F ->
  match Market.stock_pass w pages F (Market.campaign_fbs_id w)
                          (Market.warehouse_fbs_id w) 0 tr with
  | None => Market.main w pages tr = None
  | Some (Error e, tr1) =>
      Market.main w pages tr = Some (Ok tt, tr1 ++ [Market.printed e]) /\
      exists sent,
        tr1 = tr ++ Market.Enumerating (Market.campaign_fbs_id w) ::
                    map (Market.StocksSent (Market.campaign_fbs_id w)) sent
  | Some (Ok _, tr1) =>
      Market.main w pages tr =
      match Market.stock_pass w pages F (Market.campaign_dbs_id w)
                              (Market.warehouse_dbs_id w) 1 tr1 with
      | None => None
      | Some (Ok _, tr2) => Some (Ok tt, tr2)
      | Some (Error e, tr2) => Some (Ok tt, tr2 ++ [Market.printed e])
      end
  end.
Proof.
  intros HF.
  unfold Market.main, try_except, lift, pbind. rewrite HF.
  destruct (market_stock_pass_trace w pages F (Market.campaign_fbs_id w)
              (Market.warehouse_fbs_id w) 0 tr) as [->|(r & sent & ->)];
    [reflexivity|].
  destruct r as [[]|e].
  - destruct (Market.stock_pass w pages F (Market.campaign_dbs_id w) _ 1 _)
      as [[[[]|e] tr2]|]; reflexivity.
  - split; [reflexivity | now exists sent].
Qed.

Lemma market_main_passes_share_one_try_witness :
  Market.main Scenario.market_env 5 [] =
  Some (Ok tt, [Market.Enumerating "fbs";
                Market.Printed (Some ConnectionError) "Ошибка соединения"]).
Proof.
  pose proof (@market_main_passes_share_one_try
                Scenario.market_env 5 [] Scenario.feed eq_refl) as H.
  vm_compute in H. destruct H as [H _]. exact H.
Defined.

(** C3, the claim as stated fails.  With the FBS campaign unreachable and
    the DBS campaign in order, the DBS pass on its own completes and sends
    its stock update; but [main] prints the FBS failure and returns without
    having made one request for the DBS campaign. *)
Lemma pass_isolation_counterexample :
  Market.stock_pass Scenario.market_env 5 Scenario.feed "dbs" "wh-dbs" 1 [] =
  Some (Ok tt,
        [Market.Enumerating "dbs";
         Market.StocksSent "dbs"
           [Market.StockItem "A" "wh-dbs"
              [Market.StockEntry 5 "FIT" "2022-12-29T18:02:01Z"]]]) /\
  Market.main Scenario.market_env 5 [] =
  Some (Ok tt, [Market.Enumerating "fbs";
                Market.Printed (Some ConnectionError) "Ошибка соединения"]).
Proof. split; reflexivity. Qed.

Lemma seller_for_each_stocks_trace (w : Seller.env) :
  forall (chunks : list (list Seller.stock_item)) (k : nat)
         (tr : list Seller.event),
  exists (r : result unit) (sent : list (list Seller.stock_item)),
    for_each (Seller.update_stocks w) k chunks tr =
    Some (r, tr ++ map Seller.StocksSent sent).
Proof.
  induction chunks as [|c chunks IH]; intros k tr.
  - exists (Ok tt), []. simpl. now rewrite app_nil_r.
  - cbn [for_each]. unfold pbind at 1.
    unfold Seller.update_stocks at 1, pbind, emit, lift.
    destruct (Seller.update_stocks_answer w k c) as [[]|e].
    + destruct (IH (S k) (tr ++ [Seller.StocksSent c])) as (r & sent & ->).
      exists r, (c :: sent). now rewrite <- app_assoc.
    + exists (Error e), [c]. reflexivity.
Qed.

(** In [main] of seller.py, with a catalog that lists no sku twice, no price
    is ever sent: the run consists of stock chunks, followed by one print if
    something failed. *)
Theorem seller_main_never_sends_prices
    (w : Seller.env) (pages : nat) (tr : list Seller.event)
    (F : list watch) (C : list string) :
  Seller.get_offer_ids (Seller.get_product_list w) pages = Some (Ok C) ->
  NoDup C ->
  Seller.download_stock w = Ok F ->
  exists (sent : list (list Seller.stock_item)) (tail : list Seller.event),
    Seller.main w pages tr =
      Some (Ok tt, tr ++ map Seller.StocksSent sent ++ tail) /\
    (tail = [] \/ exists e, tail = [Seller.printed e]).
Proof.
  intros HC HN HF.
  rewrite (@seller_main_after_enumeration w pages tr F C HC HF).
  unfold try_except, pbind, lift.
  destruct (Spec.reconcile F C) as [us|e] eqn:E.
  - rewrite (@seller_create_stocks_ok F C us E). cbn [fst snd].
    rewrite (unclaimed_prices_empty F HN).
    destruct (divide (map Spec.seller_stock us) 100) as [chunks|e].
    + destruct (seller_for_each_stocks_trace w chunks 0 tr)
        as ([[]|e] & sent & ->).
      * exists sent, []. split; [|now left]. simpl. now rewrite app_nil_r.
      * exists sent, [Seller.printed e]. split; [|eauto].
        unfold Seller.report, emit. now rewrite <- app_assoc.
    + exists [], [Seller.printed e]. split; [reflexivity | eauto].
  - rewrite (@seller_create_stocks_error F C e E).
    exists [], [Seller.printed e]. split; [reflexivity | eauto].
Qed.

Lemma NoDup_map_filter {A B} (f : A -> B) (g : A -> bool) (l : list A) :
  NoDup (map f l) -> NoDup (map f (filter g l)).
Proof.
  induction l as [|a l IH]; [intros; constructor|]. simpl.
  intros H. inversion H as [|? ? Hn Hl]; subst.
  destruct (g a); [|now apply IH]. simpl. constructor; [|now apply IH].
  intros Hin. apply Hn. apply in_map_iff in Hin.
  destruct Hin as (x & Hx & Hf). apply filter_In in Hf.
  apply in_map_iff. exists x. tauto.
Qed.

Lemma seller_stocks_length (F : list watch) (C : list string)
      (stocks : list Seller.stock_item) :
  fst (Seller.create_stocks F C) = Ok stocks ->
  List.length stocks = List.length C.
Proof.
  intros H. destruct (Spec.reconcile F C) as [us|e] eqn:E.
  - rewrite (@seller_create_stocks_ok F C us E) in H. simpl in H.
    injection H as <-. rewrite length_map.
    rewrite <- (Permutation_length (@reconcile_skus F C us E)).
    now rewrite length_map.
  - rewrite (@seller_create_stocks_error F C e E) in H. discriminate.
Qed.

(** On a list that [create_stocks] has not touched, as [upload_prices] and
    [upload_stocks] get it from an enumeration of their own, and with no sku
    twice in the catalog or in the feed: there are at most as many price
    updates as stock updates, and as many exactly when every catalog sku is
    carried by a feed record.  market.py's [create_prices], when it returns,
    returns as many prices as seller.py's. *)
Theorem prices_within_stocks_on_fresh_list
    (F : list watch) (C : list string) (stocks : list Seller.stock_item) :
  NoDup C -> NoDup (map kod F) ->
  fst (Seller.create_stocks F C) = Ok stocks ->
  (List.length (Seller.create_prices F C) <= List.length stocks)%nat /\
  (List.length (Seller.create_prices F C) = List.length stocks <->
   forall sku, In sku C -> Spec.in_feed F sku = true) /\
  (forall prices, Market.create_prices F C = Ok prices ->
                  List.length prices = List.length (Seller.create_prices F C)).
Proof.
  intros HC HF Hs. rewrite (seller_stocks_length F C Hs).
  rewrite seller_create_prices_map, length_map.
  set (M := filter (Spec.matched C) F).
  assert (HM : NoDup (map kod M)) by now apply NoDup_map_filter.
  assert (Hincl : incl (map kod M) C).
  { intros sku Hsku. apply in_map_iff in Hsku.
    destruct Hsku as (w & <- & Hw). apply filter_In in Hw.
    now apply contains_In. }
  assert (Hle : (List.length M <= List.length C)%nat).
  { rewrite <- (length_map kod M). now apply NoDup_incl_length. }
  split; [exact Hle|]. split; [split|].
  - intros Heq sku Hsku.
    assert (Hback : incl C (map kod M)).
    { apply NoDup_length_incl; [exact HM | | exact Hincl].
      rewrite length_map. lia. }
    apply Hback in Hsku. apply in_map_iff in Hsku.
    destruct Hsku as (w & <- & Hw). apply filter_In in Hw.
    apply in_feed_In. exists w. tauto.
  - intros Hall. apply Nat.le_antisymm; [exact Hle|].
    rewrite <- (length_map kod M). apply NoDup_incl_length; [exact HC|].
    intros sku Hsku. destruct (proj1 (in_feed_In F sku) (Hall sku Hsku))
      as (w & Hw & <-).
    apply in_map_iff. exists w. split; [reflexivity|].
    apply filter_In. split; [exact Hw | now apply contains_In].
  - intros prices Hp. rewrite market_create_prices_traverse in Hp.
    exact (traverse_ok_length _ _ Hp).
Qed.

Lemma prices_within_stocks_on_fresh_list_witness :
  (List.length (Seller.create_prices Scenario.feed ["A"; "B"; "C"]) <=
   List.length [Seller.StockItem "A" 5; Seller.StockItem "B" 0;
                Seller.StockItem "C" 0])%nat.
Proof.
  refine (proj1 (@prices_within_stocks_on_fresh_list
                   Scenario.feed ["A"; "B"; "C"] _ _ _ eq_refl)).
  - repeat constructor; simpl; intuition discriminate.
  - repeat constructor; simpl; intuition.
Defined.

Lemma seller_main_never_sends_prices_witness :
  exists (sent : list (list Seller.stock_item)) (tail : list Seller.event),
    Seller.main Scenario.seller_env 1 [] =
      Some (Ok tt, map Seller.StocksSent sent ++ tail) /\
    (tail = [] \/ exists e, tail = [Seller.printed e]).
Proof.
  refine (@seller_main_never_sends_prices
            Scenario.seller_env 1 [] Scenario.feed ["A"] eq_refl _ eq_refl).
  repeat constructor; simpl; intuition.
Defined.

(** C8, the code at the failing input: Ozon lists the one sku "A" and the
    feed carries it.  [main] sends the stock update for "A" and no price at
    all, although every catalog sku is matched; [upload_prices], which
    enumerates the catalog again, sends the price of "A".  A feed that
    carries "A" twice gets two prices from [create_prices] against one stock
    update. *)
Theorem seller_main_sends_no_price :
  Seller.main Scenario.seller_env 1 [] =
    Some (Ok tt, [Seller.StocksSent [Seller.StockItem "A" 5]]) /\
  Seller.upload_prices Scenario.seller_env 1 Scenario.feed [] =
    Some (Ok [Seller.PriceItem "UNKNOWN" "RUB" "A" "0" "100"],
          [Seller.PricesSent [Seller.PriceItem "UNKNOWN" "RUB" "A" "0" "100"]]) /\
  fst (Seller.create_stocks [Watch "A" "5" "100.00"; Watch "A" "7" "90.00"]
                            ["A"]) =
    Ok [Seller.StockItem "A" 5] /\
  Seller.create_prices [Watch "A" "5" "100.00"; Watch "A" "7" "90.00"] ["A"] =
    [Seller.PriceItem "UNKNOWN" "RUB" "A" "0" "100";
     Seller.PriceItem "UNKNOWN" "RUB" "A" "0" "90"].
Proof. repeat split; reflexivity. Qed.

(** * Further properties of the code *)

(** ** [divide] outside its intended use *)

Lemma divide_chunk_sizes {A : Type} (lst : list A) (B : Z)
      (chunks : list (list A)) :
  0 < B -> divide lst B = Ok chunks ->
  List.concat chunks = lst /\
  Forall (fun c => 1 <= Z.of_nat (List.length c) <= B) chunks.
Proof.
  intros HB Hd. rewrite (divide_chunks lst HB) in Hd. injection Hd as <-.
  set (L := Z.of_nat (List.length lst)).
  destruct (@ceil_div_bounds L B ltac:(lia) HB) as (Hm0 & Hup & Hlow).
  split.
  - apply consecutive_chunks_concat. nia.
  - apply Forall_forall. intros c Hc.
    apply In_nth_error in Hc. destruct Hc as (k & Hk).
    apply consecutive_chunks_nth in Hk. destruct Hk as (Hk & ->).
    rewrite length_firstn, length_skipn. nia.
Qed.

(** [divide] with a step that is not positive.  A zero step raises the
    [ValueError] of [range]; a negative step yields no chunk at all, whatever
    the list holds, so that a caller looping over the chunks sends nothing.
    Whatever the step, no chunk that [divide] yields is empty. *)
Theorem divide_degenerate_steps {A : Type} (lst : list A) (n : Z) :
  (n = 0 -> divide lst n = Error ValueError) /\
  (n < 0 -> divide lst n = Ok []) /\
  (forall chunks, divide lst n = Ok chunks ->
                  Forall (fun c => c <> []) chunks).
Proof.
  split; [|split].
  - intros ->. reflexivity.
  - intros Hn. unfold divide, range, range_len.
    destruct (Z.eqb_spec n 0); [lia|].
    destruct (Z.ltb_spec 0 n); [lia|].
    destruct (Z.ltb_spec n 0); [|lia].
    destruct (Z.ltb_spec (Z.of_nat (List.length lst)) 0); [lia|].
    reflexivity.
  - intros chunks Hd.
    destruct (Z.lt_trichotomy n 0) as [Hn|[->|Hn]].
    + unfold divide, range, range_len in Hd.
      destruct (Z.eqb_spec n 0); [lia|].
      destruct (Z.ltb_spec 0 n); [lia|].
      destruct (Z.ltb_spec n 0); [|lia].
      destruct (Z.ltb_spec (Z.of_nat (List.length lst)) 0); [lia|].
      simpl in Hd. injection Hd as <-. constructor.
    + discriminate.
    + destruct (divide_chunk_sizes lst Hn Hd) as (_ & Hs).
      eapply Forall_impl; [|exact Hs].
      intros c Hc ->. simpl in Hc. lia.
Qed.

Lemma divide_degenerate_steps_witness :
  divide [1; 2; 3] 0 = Error ValueError /\ divide [1; 2; 3] (-2) = Ok [].
Proof.
  destruct (divide_degenerate_steps [1; 2; 3] 0) as (H0 & _).
  destruct (divide_degenerate_steps [1; 2; 3] (-2)) as (_ & Hneg & _).
  split; [apply H0; reflexivity | apply Hneg; reflexivity].
Defined.

(** ** Sending chunks one after the other *)

Section Dispatch.

Variables (event A : Type).
Variable ev : A -> event.
Variable answer : nat -> A -> result unit.

Let send (k : nat) (c : A) : prog event unit :=
  emit (ev c) ;;; lift (answer k c).

Lemma for_each_all_accepted (chunks : list A) :
  forall (k : nat) (tr : list event),
    (forall i c, nth_error chunks i = Some c -> answer (k + i) c = Ok tt) ->
    for_each send k chunks tr = Some (Ok tt, tr ++ map ev chunks).
Proof.
  induction chunks as [|c chunks IH]; intros k tr H.
  - simpl. now rewrite app_nil_r.
  - cbn [for_each]. unfold pbind at 1. unfold send at 1, pbind, emit, lift.
    pose proof (H 0%nat c eq_refl) as H0. rewrite Nat.add_0_r in H0.
    rewrite H0. rewrite IH.
    + simpl. now rewrite <- app_assoc.
    + intros i c' Hi. replace (S k + i)%nat with (k + S i)%nat by lia.
      now apply H.
Qed.

Lemma for_each_first_rejected (chunks : list A) :
  forall (k i : nat) (c : A) (e : exn) (tr : list event),
    nth_error chunks i = Some c ->
    answer (k + i) c = Error e ->
    (forall i' c', (i' < i)%nat -> nth_error chunks i' = Some c' ->
                   answer (k + i') c' = Ok tt) ->
    for_each send k chunks tr =
    Some (Error e, tr ++ map ev (firstn (S i) chunks)).
Proof.
  induction chunks as [|c0 chunks IH]; intros k i c e tr Hi He Hbefore.
  - destruct i; discriminate.
  - cbn [for_each]. unfold pbind at 1. unfold send at 1, pbind, emit, lift.
    destruct i as [|i].
    + simpl in Hi. injection Hi as ->. rewrite Nat.add_0_r in He.
      rewrite He. reflexivity.
    + pose proof (Hbefore 0%nat c0 ltac:(lia) eq_refl) as H0.
      rewrite Nat.add_0_r in H0. rewrite H0.
      rewrite (IH (S k) i c e).
      * cbn [firstn map]. now rewrite <- app_assoc.
      * exact Hi.
      * replace (S k + i)%nat with (k + S i)%nat by lia. exact He.
      * intros i' c' Hlt Hn.
        replace (S k + i')%nat with (k + S i')%nat by lia.
        apply Hbefore; [lia | exact Hn].
Qed.

End Dispatch.

(** ** [upload_stocks] and [upload_prices] of seller.py *)

(** [upload_stocks] of seller.py sends nothing unless the enumeration and the
    reconciliation have both succeeded, and then passes their failure on.
    Otherwise it cuts the stock updates into chunks of 1 to 100 records that
    together are the updates in order, and sends the chunks in order: if
    every request is accepted it returns the updates with a nonzero stock
    next to all updates; at the first rejected request it raises that failure,
    having sent no later chunk and sending none again. *)
Theorem seller_upload_stocks_dispatch
    (w : Seller.env) (pages : nat) (F : list watch) (tr : list Seller.event) :
  match Seller.get_offer_ids (Seller.get_product_list w) pages with
  | None => Seller.upload_stocks w pages F tr = None
  | Some (Error e) => Seller.upload_stocks w pages F tr = Some (Error e, tr)
  | Some (Ok C) =>
      match fst (Seller.create_stocks F C) with
      | Error e => Seller.upload_stocks w pages F tr = Some (Error e, tr)
      | Ok stocks =>
          exists chunks : list (list Seller.stock_item),
            divide stocks 100 = Ok chunks /\
            List.concat chunks = stocks /\
            Forall (fun c => 1 <= Z.of_nat (List.length c) <= 100) chunks /\
            ((forall i c, nth_error chunks i = Some c ->
                          Seller.update_stocks_answer w i c = Ok tt) ->
             Seller.upload_stocks w pages F tr =
             Some (Ok (filter (fun s => negb (Seller.stock s =? 0)) stocks,
                       stocks),
                   tr ++ map Seller.StocksSent chunks)) /\
            (forall i c e,
                nth_error chunks i = Some c ->
                Seller.update_stocks_answer w i c = Error e ->
                (forall i' c', (i' < i)%nat -> nth_error chunks i' = Some c' ->
                               Seller.update_stocks_answer w i' c' = Ok tt) ->
                Seller.upload_stocks w pages F tr =
                Some (Error e,
                      tr ++ map Seller.StocksSent (firstn (S i) chunks)))
      end
  end.
Proof.
  unfold Seller.upload_stocks, pbind, lift_paging, lift.
  destruct (Seller.get_offer_ids _ pages) as [[C|e]|]; try reflexivity.
  destruct (fst (Seller.create_stocks F C)) as [stocks|e]; [|reflexivity].
  destruct (divide stocks 100) as [chunks|e] eqn:Hd.
  2:{ unfold divide, range in Hd. simpl in Hd. discriminate. }
  destruct (@divide_chunk_sizes _ stocks 100 chunks eq_refl Hd) as (Hcat & Hsz).
  exists chunks. repeat split; try assumption.
  - intros Hall.
    pose proof (for_each_all_accepted Seller.StocksSent
                  (Seller.update_stocks_answer w) chunks 0 tr Hall) as Hf.
    change (for_each (Seller.update_stocks w) 0 chunks tr = Some (Ok tt, tr ++ map Seller.StocksSent chunks)) in Hf.
    rewrite Hf. reflexivity.
  - intros i c e Hi He Hbefore.
    pose proof (for_each_first_rejected Seller.StocksSent
                  (Seller.update_stocks_answer w) chunks 0 tr Hi He Hbefore) as Hf.
    change (for_each (Seller.update_stocks w) 0 chunks tr =
            Some (Error e, tr ++ map Seller.StocksSent (firstn (S i) chunks))) in Hf.
    rewrite Hf. reflexivity.
Qed.

(** [upload_prices] of seller.py: nothing is sent unless the enumeration has
    succeeded; then the prices that [create_prices] finds for the enumerated
    catalog are sent in order, in chunks of 1 to 1000 records, and returned
    if every request is accepted; the first rejected request ends the
    sending and its failure is raised. *)
Theorem seller_upload_prices_dispatch
    (w : Seller.env) (pages : nat) (F : list watch) (tr : list Seller.event) :
  match Seller.get_offer_ids (Seller.get_product_list w) pages with
  | None => Seller.upload_prices w pages F tr = None
  | Some (Error e) => Seller.upload_prices w pages F tr = Some (Error e, tr)
  | Some (Ok C) =>
      exists chunks : list (list Seller.price_item),
        divide (Seller.create_prices F C) 1000 = Ok chunks /\
        List.concat chunks = Seller.create_prices F C /\
        Forall (fun c => 1 <= Z.of_nat (List.length c) <= 1000) chunks /\
        ((forall i c, nth_error chunks i = Some c ->
                      Seller.update_price_answer w i c = Ok tt) ->
         Seller.upload_prices w pages F tr =
         Some (Ok (Seller.create_prices F C),
               tr ++ map Seller.PricesSent chunks)) /\
        (forall i c e,
            nth_error chunks i = Some c ->
            Seller.update_price_answer w i c = Error e ->
            (forall i' c', (i' < i)%nat -> nth_error chunks i' = Some c' ->
                           Seller.update_price_answer w i' c' = Ok tt) ->
            Seller.upload_prices w pages F tr =
            Some (Error e, tr ++ map Seller.PricesSent (firstn (S i) chunks)))
  end.
Proof.
  unfold Seller.upload_prices, pbind, lift_paging, lift.
  destruct (Seller.get_offer_ids _ pages) as [[C|e]|]; try reflexivity.
  destruct (divide (Seller.create_prices F C) 1000) as [chunks|e] eqn:Hd.
  2:{ unfold divide, range in Hd. simpl in Hd. discriminate. }
  destruct (@divide_chunk_sizes _ _ 1000 chunks eq_refl Hd) as (Hcat & Hsz).
  exists chunks. repeat split; try assumption.
  - intros Hall.
    pose proof (for_each_all_accepted Seller.PricesSent
                  (Seller.update_price_answer w) chunks 0 tr Hall) as Hf.
    change (for_each (Seller.update_price w) 0 chunks tr = Some (Ok tt, tr ++ map Seller.PricesSent chunks)) in Hf.
    rewrite Hf. reflexivity.
  - intros i c e Hi He Hbefore.
    pose proof (for_each_first_rejected Seller.PricesSent
                  (Seller.update_price_answer w) chunks 0 tr Hi He Hbefore) as Hf.
    change (for_each (Seller.update_price w) 0 chunks tr =
            Some (Error e, tr ++ map Seller.PricesSent (firstn (S i) chunks))) in Hf.
    rewrite Hf. reflexivity.
Qed.

Lemma seller_upload_stocks_dispatch_witness :
  exists chunks : list (list Seller.stock_item),
    Seller.upload_stocks Scenario.seller_env 1 Scenario.feed [] =
    Some (Ok ([Seller.StockItem "A" 5], [Seller.StockItem "A" 5]),
          map Seller.StocksSent chunks).
Proof.
  pose proof (seller_upload_stocks_dispatch
                Scenario.seller_env 1 Scenario.feed []) as H.
  change (Seller.get_offer_ids
            (Seller.get_product_list Scenario.seller_env) 1)
    with (Some (Ok ["A"]) : option (result (list string))) in H.
  change (fst (Seller.create_stocks Scenario.feed ["A"]))
    with (Ok [Seller.StockItem "A" 5] : result (list Seller.stock_item)) in H.
  cbv iota in H. destruct H as (chunks & _ & _ & _ & Hall & _).
  exists chunks. apply Hall. intros i c _. reflexivity.
Defined.

Lemma seller_upload_prices_dispatch_witness :
  exists chunks : list (list Seller.price_item),
    Seller.upload_prices Scenario.seller_env 1 Scenario.feed [] =
    Some (Ok [Seller.PriceItem "UNKNOWN" "RUB" "A" "0" "100"],
          map Seller.PricesSent chunks).
Proof.
  pose proof (seller_upload_prices_dispatch
                Scenario.seller_env 1 Scenario.feed []) as H.
  change (Seller.get_offer_ids
            (Seller.get_product_list Scenario.seller_env) 1)
    with (Some (Ok ["A"]) : option (result (list string))) in H.
  cbv iota in H. destruct H as (chunks & _ & _ & _ & Hall & _).
  exists chunks. apply Hall. intros i c _. reflexivity.
Defined.

(** ** [upload_stocks] and [upload_prices] of market.py *)

(** [upload_stocks] of market.py, for one campaign and warehouse: a failure
    of the enumeration or of the reconciliation is raised before anything is
    sent.  Otherwise the stock updates go out in order, in chunks of 1 to 2000
    records, all to that campaign; the call returns the updates with a nonzero
    count next to all updates when every request is accepted, and raises at
    the first rejected request without sending a later chunk. *)
Theorem market_upload_stocks_dispatch
    (w : Market.env) (pages : nat) (F : list watch)
    (campaign_id warehouse_id : string) (clock : nat)
    (tr : list Market.event) :
  match Market.get_offer_ids (Market.get_product_list w campaign_id) pages with
  | None =>
      Market.upload_stocks w pages F campaign_id warehouse_id clock tr = None
  | Some (Error e) =>
      Market.upload_stocks w pages F campaign_id warehouse_id clock tr =
      Some (Error e, tr ++ [Market.Enumerating campaign_id])
  | Some (Ok C) =>
      match fst (Market.create_stocks F C warehouse_id
                                      (Market.utcnow w clock)) with
      | Error e =>
          Market.upload_stocks w pages F campaign_id warehouse_id clock tr =
          Some (Error e, tr ++ [Market.Enumerating campaign_id])
      | Ok stocks =>
          exists chunks : list (list Market.stock_item),
            divide stocks 2000 = Ok chunks /\
            List.concat chunks = stocks /\
            Forall (fun c => 1 <= Z.of_nat (List.length c) <= 2000) chunks /\
            ((forall i c, nth_error chunks i = Some c ->
                          Market.update_stocks_answer w campaign_id i c =
                          Ok tt) ->
             Market.upload_stocks w pages F campaign_id warehouse_id clock tr =
             Some (Ok (filter (fun s => match Market.items s with
                                        | it :: _ => negb (Market.count it =? 0)
                                        | [] => false
                                        end) stocks,
                       stocks),
                   (tr ++ [Market.Enumerating campaign_id]) ++
                   map (Market.StocksSent campaign_id) chunks)) /\
            (forall i c e,
                nth_error chunks i = Some c ->
                Market.update_stocks_answer w campaign_id i c = Error e ->
                (forall i' c', (i' < i)%nat -> nth_error chunks i' = Some c' ->
                               Market.update_stocks_answer w campaign_id i' c'
                               = Ok tt) ->
                Market.upload_stocks w pages F campaign_id warehouse_id clock tr
                = Some (Error e,
                        (tr ++ [Market.Enumerating campaign_id]) ++
                        map (Market.StocksSent campaign_id)
                            (firstn (S i) chunks)))
      end
  end.
Proof.
  unfold Market.upload_stocks, Market.enumerate, pbind, emit, lift_paging, lift.
  destruct (Market.get_offer_ids _ pages) as [[C|e]|]; try reflexivity.
  destruct (fst (Market.create_stocks F C warehouse_id _)) as [stocks|e];
    [|reflexivity].
  destruct (divide stocks 2000) as [chunks|e] eqn:Hd.
  2:{ unfold divide, range in Hd. simpl in Hd. discriminate. }
  destruct (@divide_chunk_sizes _ stocks 2000 chunks eq_refl Hd)
    as (Hcat & Hsz).
  exists chunks. repeat split; try assumption.
  - intros Hall.
    pose proof (for_each_all_accepted (Market.StocksSent campaign_id)
                  (Market.update_stocks_answer w campaign_id) chunks 0
                  (tr ++ [Market.Enumerating campaign_id]) Hall) as Hf.
    change (for_each (Market.update_stocks w campaign_id) 0 chunks
              (tr ++ [Market.Enumerating campaign_id]) =
            Some (Ok tt, (tr ++ [Market.Enumerating campaign_id]) ++
                         map (Market.StocksSent campaign_id) chunks)) in Hf.
    rewrite Hf. reflexivity.
  - intros i c e Hi He Hbefore.
    pose proof (for_each_first_rejected (Market.StocksSent campaign_id)
                  (Market.update_stocks_answer w campaign_id) chunks 0
                  (tr ++ [Market.Enumerating campaign_id]) Hi He Hbefore)
      as Hf.
    change (for_each (Market.update_stocks w campaign_id) 0 chunks
              (tr ++ [Market.Enumerating campaign_id]) =
            Some (Error e, (tr ++ [Market.Enumerating campaign_id]) ++
                           map (Market.StocksSent campaign_id)
                               (firstn (S i) chunks))) in Hf.
    rewrite Hf. reflexivity.
Qed.

(** [upload_prices] of market.py, for one campaign: a failure of the
    enumeration, or of [create_prices] on a price without digits, is raised
    before anything is sent.  Otherwise the prices go out in order, in chunks
    of 1 to 500 records, and are returned when every request is accepted; the
    first rejected request ends the sending and its failure is raised. *)
Theorem market_upload_prices_dispatch
    (w : Market.env) (pages : nat) (F : list watch) (campaign_id : string)
    (tr : list Market.event) :
  match Market.get_offer_ids (Market.get_product_list w campaign_id) pages with
  | None => Market.upload_prices w pages F campaign_id tr = None
  | Some (Error e) =>
      Market.upload_prices w pages F campaign_id tr =
      Some (Error e, tr ++ [Market.Enumerating campaign_id])
  | Some (Ok C) =>
      match Market.create_prices F C with
      | Error e =>
          Market.upload_prices w pages F campaign_id tr =
          Some (Error e, tr ++ [Market.Enumerating campaign_id])
      | Ok prices =>
          exists chunks : list (list Market.price_item),
            divide prices 500 = Ok chunks /\
            List.concat chunks = prices /\
            Forall (fun c => 1 <= Z.of_nat (List.length c) <= 500) chunks /\
            ((forall i c, nth_error chunks i = Some c ->
                          Market.update_price_answer w campaign_id i c =
                          Ok tt) ->
             Market.upload_prices w pages F campaign_id tr =
             Some (Ok prices,
                   (tr ++ [Market.Enumerating campaign_id]) ++
                   map (Market.PricesSent campaign_id) chunks)) /\
            (forall i c e,
                nth_error chunks i = Some c ->
                Market.update_price_answer w campaign_id i c = Error e ->
                (forall i' c', (i' < i)%nat -> nth_error chunks i' = Some c' ->
                               Market.update_price_answer w campaign_id i' c'
                               = Ok tt) ->
                Market.upload_prices w pages F campaign_id tr =
                Some (Error e,
                      (tr ++ [Market.Enumerating campaign_id]) ++
                      map (Market.PricesSent campaign_id)
                          (firstn (S i) chunks)))
      end
  end.
Proof.
  unfold Market.upload_prices, Market.enumerate, pbind, emit, lift_paging, lift.
  destruct (Market.get_offer_ids _ pages) as [[C|e]|]; try reflexivity.
  destruct (Market.create_prices F C) as [prices|e]; [|reflexivity].
  destruct (divide prices 500) as [chunks|e] eqn:Hd.
  2:{ unfold divide, range in Hd. simpl in Hd. discriminate. }
  destruct (@divide_chunk_sizes _ prices 500 chunks eq_refl Hd)
    as (Hcat & Hsz).
  exists chunks. repeat split; try assumption.
  - intros Hall.
    pose proof (for_each_all_accepted (Market.PricesSent campaign_id)
                  (Market.update_price_answer w campaign_id) chunks 0
                  (tr ++ [Market.Enumerating campaign_id]) Hall) as Hf.
    change (for_each (Market.update_price w campaign_id) 0 chunks
              (tr ++ [Market.Enumerating campaign_id]) =
            Some (Ok tt, (tr ++ [Market.Enumerating campaign_id]) ++
                         map (Market.PricesSent campaign_id) chunks)) in Hf.
    rewrite Hf. reflexivity.
  - intros i c e Hi He Hbefore.
    pose proof (for_each_first_rejected (Market.PricesSent campaign_id)
                  (Market.update_price_answer w campaign_id) chunks 0
                  (tr ++ [Market.Enumerating campaign_id]) Hi He Hbefore)
      as Hf.
    change (for_each (Market.update_price w campaign_id) 0 chunks
              (tr ++ [Market.Enumerating campaign_id]) =
            Some (Error e, (tr ++ [Market.Enumerating campaign_id]) ++
                           map (Market.PricesSent campaign_id)
                               (firstn (S i) chunks))) in Hf.
    rewrite Hf. reflexivity.
Qed.

Lemma market_upload_stocks_dispatch_witness :
  exists chunks : list (list Market.stock_item),
    Market.upload_stocks Scenario.market_env 1 Scenario.feed
                         "dbs" "wh-dbs" 0 [] =
    Some (Ok ([Market.StockItem "A" "wh-dbs"
                 [Market.StockEntry 5 "FIT" "2022-12-29T18:02:01Z"]],
              [Market.StockItem "A" "wh-dbs"
                 [Market.StockEntry 5 "FIT" "2022-12-29T18:02:01Z"]]),
          [Market.Enumerating "dbs"] ++ map (Market.StocksSent "dbs") chunks).
Proof.
  pose proof (market_upload_stocks_dispatch
                Scenario.market_env 1 Scenario.feed "dbs" "wh-dbs" 0 []) as H.
  change (Market.get_offer_ids
            (Market.get_product_list Scenario.market_env "dbs") 1)
    with (Some (Ok ["A"]) : option (result (list string))) in H.
  change (fst (Market.create_stocks Scenario.feed ["A"] "wh-dbs"
                 (Market.utcnow Scenario.market_env 0)))
    with (Ok [Market.StockItem "A" "wh-dbs"
                [Market.StockEntry 5 "FIT" "2022-12-29T18:02:01Z"]]
          : result (list Market.stock_item)) in H.
  cbv iota in H. destruct H as (chunks & _ & _ & _ & Hall & _).
  exists chunks. apply Hall. intros i c _. reflexivity.
Defined.

Lemma market_upload_prices_dispatch_witness :
  exists chunks : list (list Market.price_item),
    Market.upload_prices Scenario.market_env 1 Scenario.feed "dbs" [] =
    Some (Ok [Market.PriceItem "A" (Market.PriceBody 100 "RUR")],
          [Market.Enumerating "dbs"] ++ map (Market.PricesSent "dbs") chunks).
Proof.
  pose proof (market_upload_prices_dispatch
                Scenario.market_env 1 Scenario.feed "dbs" []) as H.
  change (Market.get_offer_ids
            (Market.get_product_list Scenario.market_env "dbs") 1)
    with (Some (Ok ["A"]) : option (result (list string))) in H.
  change (Market.create_prices Scenario.feed ["A"])
    with (Ok [Market.PriceItem "A" (Market.PriceBody 100 "RUR")]
          : result (list Market.price_item)) in H.
  cbv iota in H. destruct H as (chunks & _ & _ & _ & Hall & _).
  exists chunks. apply Hall. intros i c _. reflexivity.
Defined.

(** ** Feed records of unlisted skus *)

Lemma remove_incl (x : string) (l : list string) : incl (Py.remove x l) l.
Proof.
  induction l as [|y l IH]; simpl; [intros z []|].
  destruct (String.eqb x y).
  - intros z Hz. now right.
  - intros z [<-|Hz]; [now left | right; now apply IH].
Qed.

Lemma seller_loop_unlisted (C : list string) (F : list watch) :
  forall (C' : list string) (acc : list Seller.stock_item),
    incl C' C ->
    Seller.create_stocks_loop F C' acc =
    Seller.create_stocks_loop (filter (Spec.matched C) F) C' acc.
Proof.
  induction F as [|w F IH]; intros C' acc Hincl; [reflexivity|].
  cbn [filter]. unfold Spec.matched at 1.
  destruct (Py.contains (kod w) C) eqn:E.
  - cbn [Seller.create_stocks_loop].
    destruct (Py.contains (kod w) C'); [|now apply IH].
    destruct (quantity_normalizer (kolichestvo w)); [|reflexivity].
    apply IH. intros z Hz. apply Hincl. now apply (remove_incl (kod w)).
  - cbn [Seller.create_stocks_loop].
    assert (E' : Py.contains (kod w) C' = false).
    { apply contains_false. apply contains_false in E. auto. }
    rewrite E'. now apply IH.
Qed.

Lemma market_loop_unlisted (C : list string) (warehouse_id date : string)
      (F : list watch) :
  forall (C' : list string) (acc : list Market.stock_item),
    incl C' C ->
    Market.create_stocks_loop F C' warehouse_id date acc =
    Market.create_stocks_loop (filter (Spec.matched C) F) C'
                              warehouse_id date acc.
Proof.
  induction F as [|w F IH]; intros C' acc Hincl; [reflexivity|].
  cbn [filter]. unfold Spec.matched at 1.
  destruct (Py.contains (kod w) C) eqn:E.
  - cbn [Market.create_stocks_loop].
    destruct (Py.contains (kod w) C'); [|now apply IH].
    destruct (quantity_normalizer (kolichestvo w)); [|reflexivity].
    apply IH. intros z Hz. apply Hincl. now apply (remove_incl (kod w)).
  - cbn [Market.create_stocks_loop].
    assert (E' : Py.contains (kod w) C' = false).
    { apply contains_false. apply contains_false in E. auto. }
    rewrite E'. now apply IH.
Qed.

Lemma filter_matched_twice (C : list string) (F : list watch) :
  filter (Spec.matched C) (filter (Spec.matched C) F) =
  filter (Spec.matched C) F.
Proof.
  rewrite filter_twice. apply filter_ext. intros w.
  destruct (Spec.matched C w); reflexivity.
Qed.

(** Feed records whose sku the catalog does not list play no part: all four
    reconcilers return, and leave behind, what they would on the feed without
    these records, so that neither a quantity nor a price label of such a
    record is ever read (a malformed one cannot fail the call).  When no feed
    record is listed at all, every catalog sku is decommissioned, the list is
    left as it was, and no price is made. *)
Theorem unlisted_feed_records_are_ignored
    (F : list watch) (C : list string) (warehouse_id date : string) :
  Seller.create_stocks F C =
    Seller.create_stocks (filter (Spec.matched C) F) C /\
  Market.create_stocks F C warehouse_id date =
    Market.create_stocks (filter (Spec.matched C) F) C warehouse_id date /\
  Seller.create_prices F C =
    Seller.create_prices (filter (Spec.matched C) F) C /\
  Market.create_prices F C =
    Market.create_prices (filter (Spec.matched C) F) C /\
  ((forall w, In w F -> ~ In (kod w) C) ->
   Seller.create_stocks F C =
     (Ok (map (fun sku => Seller.StockItem sku 0) C), C) /\
   Market.create_stocks F C warehouse_id date =
     (Ok (map (fun sku => Market.StockItem sku warehouse_id
                            [Market.StockEntry 0 "FIT" date]) C), C) /\
   Seller.create_prices F C = [] /\
   Market.create_prices F C = Ok []).
Proof.
  assert (Hs : Seller.create_stocks F C =
               Seller.create_stocks (filter (Spec.matched C) F) C).
  { unfold Seller.create_stocks.
    now rewrite (@seller_loop_unlisted C F C [] (incl_refl C)). }
  assert (Hm : Market.create_stocks F C warehouse_id date =
               Market.create_stocks (filter (Spec.matched C) F) C
                                    warehouse_id date).
  { unfold Market.create_stocks.
    now rewrite (@market_loop_unlisted C warehouse_id date F C []
                   (incl_refl C)). }
  assert (Hsp : Seller.create_prices F C =
                Seller.create_prices (filter (Spec.matched C) F) C).
  { now rewrite !seller_create_prices_map, filter_matched_twice. }
  assert (Hmp : Market.create_prices F C =
                Market.create_prices (filter (Spec.matched C) F) C).
  { now rewrite !market_create_prices_traverse, filter_matched_twice. }
  repeat (split; [assumption|]).
  intros Hnone.
  assert (E : filter (Spec.matched C) F = []).
  { apply filter_none. intros w Hw. apply contains_false. now apply Hnone. }
  rewrite Hs, Hm, Hsp, Hmp, E. repeat split; reflexivity.
Qed.

Lemma unlisted_feed_records_are_ignored_witness :
  Seller.create_stocks [Watch "Z" "abc" "n/a"] ["A"; "B"] =
  (Ok [Seller.StockItem "A" 0; Seller.StockItem "B" 0], ["A"; "B"]).
Proof.
  destruct (unlisted_feed_records_are_ignored
              [Watch "Z" "abc" "n/a"] ["A"; "B"] "wh" "t")
    as (_ & _ & _ & _ & Hnone).
  apply Hnone. intros w [<-|[]]. simpl. intuition discriminate.
Defined.

(** ** Order of the stock updates *)









(** ** More on prices *)








Lemma traverse_map {A B C} (f : B -> result C) (g : A -> B) (l : list A) :
  traverse f (map g l) = traverse (fun a => f (g a)) l.
Proof.
  induction l as [|a l IH]; [reflexivity|]. simpl. now rewrite IH.
Qed.

(** market.py's [create_prices] is seller.py's followed by [int] on each
    price: same records, same order, the price string read as an integer and
    the currency "RUR" in place of "RUB"; it fails, with no price at all, as
    soon as one of seller.py's price strings is not an integer literal. *)
Theorem market_prices_are_seller_prices_read
    (F : list watch) (C : list string) :
  Market.create_prices F C =
  traverse (fun p => value <- Py.int (Seller.price p) ;;
                     Ok (Market.PriceItem (Seller.price_offer_id p)
                                          (Market.PriceBody value "RUR")))
           (Seller.create_prices F C).
Proof.
  rewrite market_create_prices_traverse, seller_create_prices_map.
  now rewrite traverse_map.
Qed.

(** ** What an enumeration returns *)

Lemma seller_loop_returns (srv : Seller.listing) (pages : nat) :
  forall (calls : nat) (last_id : string)
         (acc l : list Seller.product),
    Seller.get_offer_ids_loop srv pages calls last_id acc = Some (Ok l) ->
    exists (k : nat) (cursor : string) (p : Seller.product_page)
           (front : list Seller.product),
      (calls <= k < calls + pages)%nat /\
      srv k cursor = Ok p /\
      Seller.page_total p = Z.of_nat (List.length l) /\
      l = front ++ Seller.page_items p.
Proof.
  induction pages as [|pages IH]; intros calls last_id acc l H;
    [discriminate|].
  cbn [Seller.get_offer_ids_loop] in H.
  destruct (srv calls last_id) as [p|e] eqn:E; [|discriminate].
  cbv zeta in H.
  destruct (Z.eqb_spec (Seller.page_total p)
              (Z.of_nat (List.length (acc ++ Seller.page_items p))))
    as [Ht|_].
  - injection H as <-. exists calls, last_id, p, acc.
    repeat split; try assumption; lia.
  - destruct (IH _ _ _ _ H) as (k & cursor & p' & front & Hk & Hp & Ht & Hl).
    exists k, cursor, p', front. repeat split; try assumption; lia.
Qed.

Lemma market_loop_returns (srv : Market.listing) (pages : nat) :
  forall (calls : nat) (page : string)
         (acc l : list Market.mapping_entry),
    Market.get_offer_ids_loop srv pages calls page acc = Some (Ok l) ->
    exists (k : nat) (cursor : string) (p : Market.mapping_page)
           (front : list Market.mapping_entry),
      (calls <= k < calls + pages)%nat /\
      srv k cursor = Ok p /\
      Market.falsy (Market.nextPageToken p) = true /\
      l = front ++ Market.offerMappingEntries p.
Proof.
  induction pages as [|pages IH]; intros calls page acc l H;
    [discriminate|].
  cbn [Market.get_offer_ids_loop] in H.
  destruct (srv calls page) as [p|e] eqn:E; [|discriminate].
  cbv zeta in H.
  destruct (Market.falsy (Market.nextPageToken p)) eqn:Hf.
  - injection H as <-. exists calls, page, p, acc.
    repeat split; try assumption; lia.
  - destruct (IH _ _ _ _ H) as (k & cursor & p' & front & Hk & Hp & Ht & Hl).
    exists k, cursor, p', front. repeat split; try assumption; lia.
Qed.

(** When an enumeration returns a catalog, its last answer met the stop
    test and its entries end the catalog: for seller.py the catalog has as
    many skus as that answer's total says (so a negative total can never end
    an enumeration), for market.py that answer's next-page token is absent or
    empty. *)
Theorem get_offer_ids_returns_at_stop :
  (forall (srv : Seller.listing) (pages : nat) (ids : list string),
      Seller.get_offer_ids srv pages = Some (Ok ids) ->
      exists (k : nat) (cursor : string) (p : Seller.product_page)
             (front : list string),
        (k < pages)%nat /\ srv k cursor = Ok p /\
        Seller.page_total p = Z.of_nat (List.length ids) /\
        ids = front ++ map Seller.product_offer_id (Seller.page_items p)) /\
  (forall (srv : Market.listing) (pages : nat) (ids : list string),
      Market.get_offer_ids srv pages = Some (Ok ids) ->
      exists (k : nat) (cursor : string) (p : Market.mapping_page)
             (front : list string),
        (k < pages)%nat /\ srv k cursor = Ok p /\
        Market.falsy (Market.nextPageToken p) = true /\
        ids = front ++ map Market.shopSku (Market.offerMappingEntries p)).
Proof.
  split; intros srv pages ids H.
  - unfold Seller.get_offer_ids in H.
    destruct (Seller.get_offer_ids_loop srv pages 0 "" [])
      as [[l|e]|] eqn:E; try discriminate.
    injection H as <-.
    destruct (seller_loop_returns srv pages _ _ _ E)
      as (k & cursor & p & front & Hk & Hp & Ht & ->).
    exists k, cursor, p, (map Seller.product_offer_id front).
    repeat split; try assumption; try lia.
    + now rewrite length_map.
    + now rewrite map_app.
  - unfold Market.get_offer_ids in H.
    destruct (Market.get_offer_ids_loop srv pages 0 "" [])
      as [[l|e]|] eqn:E; try discriminate.
    injection H as <-.
    destruct (market_loop_returns srv pages _ _ _ E)
      as (k & cursor & p & front & Hk & Hp & Ht & ->).
    exists k, cursor, p, (map Market.shopSku front).
    repeat split; try assumption; try lia.
    now rewrite map_app.
Qed.

Lemma get_offer_ids_returns_at_stop_witness :
  exists (k : nat) (cursor : string) (p : Seller.product_page)
         (front : list string),
    (k < 5)%nat /\ Scenario.seller_two_pages k cursor = Ok p /\
    Seller.page_total p = 2.
Proof.
  destruct (proj1 get_offer_ids_returns_at_stop
              Scenario.seller_two_pages 5%nat ["A"; "B"] eq_refl)
    as (k & cursor & p & front & Hk & Hp & Ht & _).
  exists k, cursor, p, front. repeat split; assumption.
Defined.

(** ** What the two [main] let out *)

Lemma seller_for_each_prices_trace (w : Seller.env) :
  forall (chunks : list (list Seller.price_item)) (k : nat)
         (tr : list Seller.event),
  exists (r : result unit) (sent : list (list Seller.price_item)),
    for_each (Seller.update_price w) k chunks tr =
    Some (r, tr ++ map Seller.PricesSent sent).
Proof.
  induction chunks as [|c chunks IH]; intros k tr.
  - exists (Ok tt), []. simpl. now rewrite app_nil_r.
  - cbn [for_each]. unfold pbind at 1.
    unfold Seller.update_price at 1, pbind, emit, lift.
    destruct (Seller.update_price_answer w k c) as [[]|e].
    + destruct (IH (S k) (tr ++ [Seller.PricesSent c])) as (r & sent & ->).
      exists r, (c :: sent). now rewrite <- app_assoc.
    + exists (Error e), [c]. reflexivity.
Qed.

(** The [try] block of seller.py's [main] lets no exception out: whatever
    fails in it (the enumeration, the download of the feed, a quantity label,
    a rejected request) is printed, once, and [main] returns.  It enumerates
    before it downloads; it sends nothing unless both have succeeded, and
    then stock chunks first, price chunks after them. *)
Lemma seller_try_block_never_raises
    (w : Seller.env) (pages : nat) (tr : list Seller.event) :
  match Seller.get_offer_ids (Seller.get_product_list w) pages with
  | None => Seller.main w pages tr = None
  | Some (Error e) =>
      Seller.main w pages tr = Some (Ok tt, tr ++ [Seller.printed e])
  | Some (Ok C) =>
      match Seller.download_stock w with
      | Error e =>
          Seller.main w pages tr = Some (Ok tt, tr ++ [Seller.printed e])
      | Ok F =>
          exists (sent : list (list Seller.stock_item))
                 (psent : list (list Seller.price_item))
                 (tail : list Seller.event),
            Seller.main w pages tr =
              Some (Ok tt,
                    tr ++ map Seller.StocksSent sent ++
                    map Seller.PricesSent psent ++ tail) /\
            (tail = [] \/ exists e, tail = [Seller.printed e])
      end
  end.
Proof.
  destruct (Seller.get_offer_ids (Seller.get_product_list w) pages)
    as [[C|e]|] eqn:HC.
  - destruct (Seller.download_stock w) as [F|e] eqn:HF.
    + rewrite (@seller_main_after_enumeration w pages tr F C HC HF).
      unfold try_except, pbind, lift.
      destruct (fst (Seller.create_stocks F C)) as [stocks|e].
      2:{ exists [], [], [Seller.printed e]. split; [reflexivity | eauto]. }
      destruct (divide stocks 100) as [chunks|e].
      2:{ exists [], [], [Seller.printed e]. split; [reflexivity | eauto]. }
      destruct (seller_for_each_stocks_trace w chunks 0 tr)
        as ([[]|e] & sent & ->).
      2:{ exists sent, [], [Seller.printed e]. split; [|eauto].
          unfold Seller.report, emit. now rewrite <- app_assoc. }
      destruct (divide (Seller.create_prices F _) 900) as [pchunks|e].
      2:{ exists sent, [], [Seller.printed e]. split; [|eauto].
          unfold Seller.report, emit. now rewrite <- app_assoc. }
      destruct (seller_for_each_prices_trace w pchunks 0
                  (tr ++ map Seller.StocksSent sent))
        as ([[]|e] & psent & ->).
      * exists sent, psent, []. split; [|now left].
        now rewrite app_nil_r, <- app_assoc.
      * exists sent, psent, [Seller.printed e]. split; [|eauto].
        unfold Seller.report, emit. now rewrite <- !app_assoc.
    + unfold Seller.main, try_except, pbind, lift_paging, lift.
      rewrite HC, HF. reflexivity.
  - unfold Seller.main, try_except, pbind, lift_paging, lift.
    rewrite HC. reflexivity.
  - unfold Seller.main, try_except, pbind, lift_paging, lift.
    rewrite HC. reflexivity.
Qed.

(** market.py's [main] after its five reads: it raises when the download
    of the feed fails, a call that stands before the [try], and nothing has
    been requested or printed by then.  With the feed in hand it does not
    raise; all it does is enumerate, send stock chunks and print at most one
    failure at the end: it never sends a price. *)
Lemma market_main_after_reads
    (w : Market.env) (pages : nat) (tr : list Market.event) :
  match Market.download_stock w with
  | Error e => Market.main w pages tr = Some (Error e, tr)
  | Ok F =>
      Market.main w pages tr = None \/
      exists (evs tail : list Market.event),
        Market.main w pages tr = Some (Ok tt, tr ++ evs ++ tail) /\
        Forall (fun ev => match ev with
                          | Market.Enumerating _ | Market.StocksSent _ _ => True
                          | _ => False
                          end) evs /\
        (tail = [] \/ exists e, tail = [Market.printed e])
  end.
Proof.
  destruct (Market.download_stock w) as [F|e] eqn:HF.
  2:{ unfold Market.main, pbind, lift. now rewrite HF. }
  assert (Hshape : forall c (sent : list (list Market.stock_item)),
             Forall (fun ev => match ev with
                               | Market.Enumerating _
                               | Market.StocksSent _ _ => True
                               | _ => False
                               end)
                    (Market.Enumerating c :: map (Market.StocksSent c) sent)).
  { intros c sent. constructor; [exact I|].
    apply Forall_forall. intros ev Hev. apply in_map_iff in Hev.
    destruct Hev as (x & <- & _). exact I. }
  unfold Market.main, try_except, lift, pbind. rewrite HF.
  destruct (market_stock_pass_trace w pages F (Market.campaign_fbs_id w)
              (Market.warehouse_fbs_id w) 0 tr) as [->|(r & sent & ->)];
    [now left|].
  destruct r as [[]|e].
  - destruct (market_stock_pass_trace w pages F (Market.campaign_dbs_id w)
                (Market.warehouse_dbs_id w) 1
                (tr ++ Market.Enumerating (Market.campaign_fbs_id w) ::
                       map (Market.StocksSent (Market.campaign_fbs_id w)) sent))
      as [->|(r & sent' & ->)]; [now left|].
    right.
    exists ((Market.Enumerating (Market.campaign_fbs_id w) ::
             map (Market.StocksSent (Market.campaign_fbs_id w)) sent) ++
            (Market.Enumerating (Market.campaign_dbs_id w) ::
             map (Market.StocksSent (Market.campaign_dbs_id w)) sent')).
    destruct r as [[]|e].
    + exists []. split; [|split; [|now left]].
      * now rewrite app_nil_r, <- !app_assoc.
      * apply Forall_app. split; apply Hshape.
    + exists [Market.printed e]. split; [|split; [|eauto]].
      * unfold Market.report, emit. now rewrite <- !app_assoc.
      * apply Forall_app. split; apply Hshape.
  - right.
    exists (Market.Enumerating (Market.campaign_fbs_id w) ::
            map (Market.StocksSent (Market.campaign_fbs_id w)) sent),
           [Market.printed e].
    split; [|split; [apply Hshape | eauto]].
    unfold Market.report, emit. now rewrite <- !app_assoc.
Qed.

(** ** When [create_stocks] raises *)

(** [create_stocks] raises for one reason only: some feed record whose sku
    the catalog lists carries a quantity label that is neither ">10" nor "1"
    nor an integer literal.  The exception is the [ValueError] of [int], and
    market.py's function raises it on the same input. *)
Theorem create_stocks_fails_on_listed_label
    (F : list watch) (C : list string) (e : exn) :
  fst (Seller.create_stocks F C) = Error e ->
  e = InvalidQuantity /\
  (exists w, In w F /\ In (kod w) C /\
             quantity_normalizer (kolichestvo w) = Error InvalidQuantity) /\
  forall warehouse_id date : string,
    fst (Market.create_stocks F C warehouse_id date) = Error e.
Proof.
  intros H. destruct (Spec.reconcile F C) as [us|e'] eqn:E.
  - rewrite (@seller_create_stocks_ok F C us E) in H. discriminate.
  - rewrite (@seller_create_stocks_error F C e' E) in H. injection H as <-.
    unfold Spec.reconcile in E.
    destruct (traverse Spec.feed_update (Spec.claimed F C)) as [l|e''] eqn:T;
      simpl in E; [discriminate|]. injection E as ->.
    destruct (traverse_error _ _ T) as (w & Hw & Hfu).
    unfold Spec.feed_update in Hfu.
    destruct (quantity_normalizer (kolichestvo w)) as [q|e''] eqn:Q;
      simpl in Hfu; [discriminate|]. injection Hfu as ->.
    pose proof (quantity_normalizer_error _ Q) as ->.
    destruct (claimed_incl _ _ _ Hw) as (HF & HC).
    split; [reflexivity|]. split; [exists w; auto|].
    intros warehouse_id date.
    apply market_create_stocks_error. unfold Spec.reconcile. now rewrite T.
Qed.

Lemma create_stocks_fails_on_listed_label_witness :
  exists w, In w [Watch "A" "abc" "100.00"] /\ In (kod w) ["A"] /\
            quantity_normalizer (kolichestvo w) = Error InvalidQuantity.
Proof.
  destruct (@create_stocks_fails_on_listed_label
              [Watch "A" "abc" "100.00"] ["A"] ValueError eq_refl)
    as (_ & H & _).
  exact H.
Defined.

(** ** The two [main] from their first line *)

(** [main] of seller.py raises in one case only: when [SELLER_TOKEN] or
    [CLIENT_ID] is unset.  These reads stand before the [try]; the failure
    of the first one met is raised, and nothing has been requested or printed
    by then.  Once both are read [main] never raises: whatever fails (the
    enumeration, the download of the feed, a quantity label, a rejected
    request) is printed, once, and [main] returns.  It enumerates before it
    downloads, sends nothing unless both have succeeded, and then stock
    chunks first, price chunks after them. *)
Theorem seller_main_raises_only_before_try
    (SELLER_TOKEN CLIENT_ID : result string)
    (w : Seller.env) (pages : nat) (tr : list Seller.event) :
  match SELLER_TOKEN, CLIENT_ID with
  | Error e, _ =>
      Startup.seller_main SELLER_TOKEN CLIENT_ID w pages tr =
      Some (Error e, tr)
  | Ok _, Error e =>
      Startup.seller_main SELLER_TOKEN CLIENT_ID w pages tr =
      Some (Error e, tr)
  | Ok _, Ok _ =>
      match Seller.get_offer_ids (Seller.get_product_list w) pages with
      | None => Startup.seller_main SELLER_TOKEN CLIENT_ID w pages tr = None
      | Some (Error e) =>
          Startup.seller_main SELLER_TOKEN CLIENT_ID w pages tr =
          Some (Ok tt, tr ++ [Seller.printed e])
      | Some (Ok C) =>
          match Seller.download_stock w with
          | Error e =>
              Startup.seller_main SELLER_TOKEN CLIENT_ID w pages tr =
              Some (Ok tt, tr ++ [Seller.printed e])
          | Ok F =>
              exists (sent : list (list Seller.stock_item))
                     (psent : list (list Seller.price_item))
                     (tail : list Seller.event),
                Startup.seller_main SELLER_TOKEN CLIENT_ID w pages tr =
                  Some (Ok tt,
                        tr ++ map Seller.StocksSent sent ++
                        map Seller.PricesSent psent ++ tail) /\
                (tail = [] \/ exists e, tail = [Seller.printed e])
          end
      end
  end.
Proof.
  destruct SELLER_TOKEN as [st|e]; [|reflexivity].
  destruct CLIENT_ID as [ci|e]; [|reflexivity].
  change (Startup.seller_main (Ok st) (Ok ci) w pages tr)
    with (Seller.main w pages tr).
  apply seller_try_block_never_raises.
Qed.

(** [main] of market.py raises in two cases only, both before its [try]:
    when one of [MARKET_TOKEN], [FBS_ID], [DBS_ID], [WAREHOUSE_FBS_ID],
    [WAREHOUSE_DBS_ID] is unset (the first such read raises), and when the
    download of the feed fails; nothing has been requested or printed by
    then.  Otherwise [main] never raises; all it does is enumerate, send
    stock chunks and print at most one failure at the end: it never sends a
    price. *)
Theorem market_main_raises_only_before_try
    (MARKET_TOKEN FBS_ID DBS_ID WAREHOUSE_FBS_ID WAREHOUSE_DBS_ID
     : result string)
    (w : Market.env) (pages : nat) (tr : list Market.event) :
  let run := Startup.market_main MARKET_TOKEN FBS_ID DBS_ID
                                 WAREHOUSE_FBS_ID WAREHOUSE_DBS_ID
                                 w pages tr in
  match traverse Startup.env_str
                 [MARKET_TOKEN; FBS_ID; DBS_ID;
                  WAREHOUSE_FBS_ID; WAREHOUSE_DBS_ID] with
  | Error e => run = Some (Error e, tr)
  | Ok _ =>
      match Market.download_stock w with
      | Error e => run = Some (Error e, tr)
      | Ok F =>
          run = None \/
          exists (evs tail : list Market.event),
            run = Some (Ok tt, tr ++ evs ++ tail) /\
            Forall (fun ev => match ev with
                              | Market.Enumerating _
                              | Market.StocksSent _ _ => True
                              | _ => False
                              end) evs /\
            (tail = [] \/ exists e, tail = [Market.printed e])
      end
  end.
Proof.
  cbv zeta.
  destruct MARKET_TOKEN as [mt|e]; [|reflexivity].
  destruct FBS_ID as [fbs|e]; [|reflexivity].
  destruct DBS_ID as [dbs|e]; [|reflexivity].
  destruct WAREHOUSE_FBS_ID as [wf|e]; [|reflexivity].
  destruct WAREHOUSE_DBS_ID as [wd|e]; [|reflexivity].
  change (Startup.market_main (Ok mt) (Ok fbs) (Ok dbs) (Ok wf) (Ok wd)
                              w pages tr)
    with (Market.main (Startup.configured w fbs dbs wf wd) pages tr).
  cbn [traverse bind Startup.env_str].
  change (Market.download_stock w)
    with (Market.download_stock (Startup.configured w fbs dbs wf wd)).
  apply market_main_after_reads.
Qed.
